(** * zinbot: the MediaWiki API layer ([api.py], [utils.py])

    A shallow embedding of the request / token / error-reporting code of
    'zinbot, followed by the properties its specification states about it.

    The two Python modules are embedded side by side ([Module utils],
    [Module api]); they share the model of the Python run time they run on
    (values, exceptions, the file system, the [requests] session). *)

From Stdlib Require Import ZArith String Ascii DecimalString.
From Stdlib.Strings Require Import Byte.
From stdpp Require Import base option gmap strings list fin_maps.

#[local] Set Warnings "-register-all".
#[local] Open Scope string_scope.

(* ===================================================================== *)
(** * The Python run time *)
(* ===================================================================== *)

(** ** Values

    What [Response.json()] returns: the value tree of [json.loads].  JSON
    objects are Python dicts with string keys.  Numbers are restricted to
    integers; no code path of the two modules looks inside a number. *)
Inductive JSON : Type :=
  | JNull
  | JBool (b : bool)
  | JInt (n : Z)
  | JStr (s : string)
  | JArr (l : list JSON)
  | JObj (m : gmap string JSON).

(** The objects that reach [APIError.__init__] as [event] and the values of
    request parameters: raw [bytes] ([Response.content]) or a JSON value
    (a [str], a decoded response, [None]). *)
Inductive pyobj : Type :=
  | PyBytes (b : list byte)
  | PyJSON (j : JSON).

Definition PyNone : pyobj := PyJSON JNull.
Definition PyStr (s : string) : pyobj := PyJSON (JStr s).

(** Python's [bool(x)], as used by [if event:]. *)
Definition json_truthy (j : JSON) : bool :=
  match j with
  | JNull => false
  | JBool b => b
  | JInt n => negb (n =? 0)%Z
  | JStr s => negb (String.eqb s EmptyString)
  | JArr l => negb (bool_decide (l = []))
  | JObj m => negb (bool_decide (m = ∅))
  end.

Definition truthy (o : pyobj) : bool :=
  match o with
  | PyBytes b => negb (bool_decide (b = []))
  | PyJSON j => json_truthy j
  end.

(** [sub in s] on two [str]. *)
Definition str_contains (sub s : string) : bool :=
  match String.index 0 sub s with
  | Some _ => true
  | None => false
  end.

(** [x == s] for a [str] literal [s]. *)
Definition eq_str (x : JSON) (s : string) : bool :=
  match x with
  | JStr s' => String.eqb s' s
  | _ => false
  end.

(** [{**base, **extra}]: the entries of [extra] override those of [base]. *)
Definition dict_unpack {V} (base extra : gmap string V) : gmap string V :=
  extra ∪ base.

(** ** Exceptions

    [api.APIError] and [utils.APIError] are two textually identical classes;
    nothing in either module catches an [APIError], so one constructor stands
    for both.  [RequestException] is whatever the [requests] session raises
    when the exchange itself fails. *)
Inductive exn : Type :=
  | APIError (msg : string)
  | ZBError (msg : string)
  | TypeError
  | KeyError (key : string)
  | JSONDecodeError
  | OSError (path : string)
  | RequestException.

(** The specification names the four places where an [APIError] is raised;
    the code tells them apart by the message only. *)
Inductive APIErrorKind : Type :=
  | HTTPStatus
  | MalformedResponse
  | APIReportedError
  | MissingToken.

Definition kind_of_message (msg : string) : option APIErrorKind :=
  if String.prefix "response.status_code=" msg then Some HTTPStatus
  else if String.eqb msg "No JSON found." then Some MalformedResponse
  else if String.eqb msg "'error' field in response." then Some APIReportedError
  else if String.eqb msg "No token obtained." then Some MissingToken
  else None.

Definition kind_of (e : exn) : option APIErrorKind :=
  match e with
  | APIError msg => kind_of_message msg
  | _ => None
  end.

(** ** The world: network and file system *)

Inductive Method : Type := GET | POST.

(** One call [session.get(url, params=...)] or
    [session.post(url, params=..., data=...)]. *)
Record Request : Type := mkRequest {
  req_method : Method;
  req_url : string;
  req_params : gmap string pyobj;
  req_data : option (gmap string pyobj)
}.

(** A [requests.Response], as far as the code observes it: the status code,
    the raw body, and what [.json()] gives ([None] when it raises
    [JSONDecodeError]). *)
Record Response : Type := mkResponse {
  status_code : Z;
  content : list byte;
  json : option JSON
}.

(** [bool(response)] is [response.ok]: false exactly when
    [raise_for_status()] would raise, i.e. for 400 <= status < 600. *)
Definition error_status (s : Z) : bool := ((400 <=? s) && (s <? 600))%Z.
Definition Response_bool (r : Response) : bool :=
  negb (error_status (status_code r)).

Inductive Outcome : Type :=
  | Responds (r : Response)
  | Fails.

(** What ends up in a file: the text [json.dump] produces for a value, or
    the text of [str(event)].  The serialisers are Python's; the model keeps
    which one ran on which object. *)
Inductive chunk : Type :=
  | json_text (j : JSON)
  | str_text (o : pyobj).

(** - [remote]: the far end; the outcome of the latest request, given all
      requests sent so far (oldest first, latest last);
    - [sent]: the requests sent so far;
    - [denied]: the paths [open(path, 'w')] fails on;
    - [files]: the content of each file, as the chunks written since it was
      last truncated. *)
Record World : Type := mkWorld {
  remote : list Request → Outcome;
  sent : list Request;
  denied : gset string;
  files : gmap string (list chunk)
}.

Definition set_sent (l : list Request) (w : World) : World :=
  mkWorld (remote w) l (denied w) (files w).
Definition set_files (f : gmap string (list chunk)) (w : World) : World :=
  mkWorld (remote w) (sent w) (denied w) f.

(** ** Computations: state and exceptions

    A raised exception keeps the effects performed before it. *)
Inductive Result (A : Type) : Type :=
  | Return (a : A)
  | Raise (e : exn).
Arguments Return {A} a.
Arguments Raise {A} e.

Definition Py (A : Type) : Type := World → Result A * World.

Definition ret {A} (a : A) : Py A := λ w, (Return a, w).
Definition raise {A} (e : exn) : Py A := λ w, (Raise e, w).
Definition bind {A B} (m : Py A) (k : A → Py B) : Py B :=
  λ w, match m w with
       | (Return a, w') => k a w'
       | (Raise e, w') => (Raise e, w')
       end.

(** [try: body  except <handled>: handler]; [handler e = None] when the
    [except] clause does not match [e]. *)
Definition try_except {A} (body : Py A) (handler : exn → option (Py A)) : Py A :=
  λ w, match body w with
       | (Return a, w') => (Return a, w')
       | (Raise e, w') =>
           match handler e with
           | Some h => h w'
           | None => (Raise e, w')
           end
       end.

Declare Scope py_scope.
Delimit Scope py_scope with py.
Notation "x <- m ;; k" := (bind m (λ x, k))
  (at level 100, m at next level, right associativity) : py_scope.
#[local] Open Scope py_scope.

(** ** Builtins with effects or exceptions *)

(** [key in data]. *)
Definition contains (key : string) (data : JSON) : Py bool :=
  match data with
  | JObj m => ret (bool_decide (is_Some (m !! key)))
  | JArr l => ret (existsb (λ x, eq_str x key) l)
  | JStr s => ret (str_contains key s)
  | JNull | JBool _ | JInt _ => raise TypeError
  end.

(** [data[key]] for a [str] key. *)
Definition getitem (data : JSON) (key : string) : Py JSON :=
  match data with
  | JObj m =>
      match m !! key with
      | Some v => ret v
      | None => raise (KeyError key)
      end
  | _ => raise TypeError
  end.

(** [open(path, 'w')]: truncates the file, or fails. *)
Definition open_w (path : string) : Py string :=
  λ w, if decide (path ∈ denied w) then (Raise (OSError path), w)
       else (Return path, set_files (<[path := []]> (files w)) w).

(** [f.write(text)]. *)
Definition write (f : string) (c : chunk) : Py unit :=
  λ w, (Return tt, set_files (<[f := (default [] (files w !! f) ++ [c])%list]> (files w)) w).

(** [json.dump(obj, f)]: [bytes] is not JSON serialisable; the [TypeError]
    comes before anything is written. *)
Definition json_dump (obj : pyobj) (f : string) : Py unit :=
  match obj with
  | PyBytes _ => raise TypeError
  | PyJSON j => write f (json_text j)
  end.

(** [with open(path, 'w') as f: body]. *)
Definition with_open_w {A} (path : string) (body : string → Py A) : Py A :=
  f <- open_w path ;; body f.

(** [open(path, 'a')]: keeps what the file holds, creates it when absent, or
    fails. *)
Definition open_a (path : string) : Py string :=
  λ w, if decide (path ∈ denied w) then (Raise (OSError path), w)
       else (Return path,
             set_files (<[path := default [] (files w !! path)]> (files w)) w).

(** [with open(path, 'a') as f: body]. *)
Definition with_open_a {A} (path : string) (body : string → Py A) : Py A :=
  f <- open_a path ;; body f.

(** The line feed of ["\n"] in a Python literal. *)
Definition nl : string := String (ascii_of_nat 10) EmptyString.

(** [session.get] / [session.post]. *)
Definition session_call (r : Request) : Py Response :=
  λ w, let log := (sent w ++ [r])%list in
       match remote w log with
       | Responds resp => (Return resp, set_sent log w)
       | Fails => (Raise RequestException, set_sent log w)
       end.

(** [response.json()]. *)
Definition Response_json (r : Response) : Py JSON :=
  match json r with
  | Some data => ret data
  | None => raise JSONDecodeError
  end.

(** [f"{response.status_code=}"]. *)
Definition fmt_status_code (r : Response) : string :=
  "response.status_code=" ++ NilZero.string_of_int (Z.to_int (status_code r)).

(** [TokenType = Literal['createaccount', 'csrf', ...]]. *)
Inductive TokenType : Type :=
  | createaccount | csrf | deleteglobalaccount | login | patrol
  | rollback | setglobalaccountstatus | userrights | watch.

Definition TokenType_str (t : TokenType) : string :=
  match t with
  | createaccount => "createaccount"
  | csrf => "csrf"
  | deleteglobalaccount => "deleteglobalaccount"
  | login => "login"
  | patrol => "patrol"
  | rollback => "rollback"
  | setglobalaccountstatus => "setglobalaccountstatus"
  | userrights => "userrights"
  | watch => "watch"
  end.

(** The keyword arguments [_request] / [_api] pass on to the session. *)
Record Kwargs : Type := mkKwargs {
  kw_params : gmap string pyobj;
  kw_data : option (gmap string pyobj)
}.

Definition send (methodname : Method) (url : string) (kwargs : Kwargs) : Py Response :=
  session_call (mkRequest methodname url (kw_params kwargs) (kw_data kwargs)).

(* ===================================================================== *)
(** * utils.py *)
(* ===================================================================== *)

Module utils.

Definition API_URL : string := "https://test.wikipedia.org/w/api.php?".

(** [APIError.__init__(self, msg, event=None)]: returns the exception
    object, after the diagnostic writes. *)
Definition APIError__init__ (msg : string) (event : pyobj) : Py exn :=
  if truthy event then
    _ <- try_except
           (with_open_w "logs/APIError.json" (λ f, json_dump event f))
           (λ e, match e with
                 | TypeError =>
                     Some (with_open_w "logs/APIError.txt"
                             (λ f, write f (str_text event)))
                 | _ => None
                 end) ;;
    ret (APIError msg)
  else ret (APIError msg).

(** [raise APIError(msg, event)]. *)
Definition raise_APIError {A} (msg : string) (event : pyobj) : Py A :=
  e <- APIError__init__ msg event ;; raise e.

(** [class ZBError(Exception)] has no body: [raise ZBError(msg)] is
    [raise (ZBError msg)]. *)

Module Authorization.
Record t : Type := mk {
  client_key : string;
  client_secret : string;
  access_key : string;
  access_secret : string
}.

Definition __repr__ (self : t) : string :=
  "Authorization(" ++ client_key self ++ ", " ++ client_secret self ++ ", "
    ++ access_key self ++ ", " ++ access_secret self ++ ")".

Definition __str__ (self : t) : string :=
  "<Authorization object with access key " ++ access_key self ++ ">".
End Authorization.

Module Bot.
(** [self.session] is the session of the world; [self.site] is not used by
    the methods below. *)
Record t : Type := mk { _auth : Authorization.t }.

Definition __repr__ (self : t) : string :=
  "Bot(" ++ Authorization.__repr__ (_auth self) ++ ")".

Definition __str__ (self : t) : string :=
  "Bot(" ++ Authorization.__str__ (_auth self) ++ ")".

Definition _api (self : t) (methodname : Method) (kwargs : Kwargs) : Py JSON :=
  response <- send methodname API_URL kwargs ;;
  if negb (Response_bool response) then
    raise_APIError (fmt_status_code response) (PyBytes (content response))
  else
    data <- try_except (Response_json response)
              (λ e, match e with
                    | JSONDecodeError =>
                        Some (raise_APIError "No JSON found."
                                (PyBytes (content response)))
                    | _ => None
                    end) ;;
    has_error <- contains "error" data ;;
    if has_error then
      raise_APIError "'error' field in response." (PyBytes (content response))
    else ret data.

Definition get (self : t) (params : gmap string pyobj) : Py JSON :=
  _api self GET
    (mkKwargs (dict_unpack {[ "format" := PyStr "json" ]} params) None).

Definition get_token (self : t) (tokentype : TokenType) : Py JSON :=
  query <- get self {[ "action" := PyStr "query";
                       "meta" := PyStr "tokens";
                       "type" := PyStr (TokenType_str tokentype) ]} ;;
  token <- try_except
             (q <- getitem query "query" ;;
              ts <- getitem q "tokens" ;;
              getitem ts (TokenType_str tokentype ++ "token"))
             (λ e, match e with
                   | KeyError _ =>
                       Some (raise_APIError "No token obtained." (PyJSON query))
                   | _ => None
                   end) ;;
  if eq_str token "+\\" then raise (ZBError "Empty token.")
  else ret token.

Definition post (self : t) (params : gmap string pyobj)
    (tokentype : TokenType) : Py JSON :=
  let params' := dict_unpack {[ "format" := PyStr "json" ]} params in
  token <- get_token self tokentype ;;
  _api self POST (mkKwargs params' (Some {[ "token" := PyJSON token ]})).
(** [pywikibot.Page] is not part of the repository: the type of pages, the
    constructor [Page(site, title=..., ns=...)] and [page.exists()] are taken
    as given. *)
Section getpage.
Variable Page : Type.
Variable Page_new : string → Z → Page.
Variable Page_exists : Page → Py bool.

Definition getpage (self : t) (title : string) (ns : Z) (must_exist : bool) :
    Py Page :=
  let page := Page_new title ns in
  if must_exist then
    found <- Page_exists page ;;
    if negb found then raise (ZBError "Page does not exist") else ret page
  else ret page.
End getpage.
End Bot.

Definition WIKI_URL : string := "https://test.wikipedia.org/wiki/".

(** The defaults of [prefix] and [summary] in [log_onwiki]. *)
Definition log_onwiki_prefix : string := "User:'zinbot/logs/".
Definition log_onwiki_summary : string := "Updating logs".

(** [zb] is [Bot(bot_auth)], with [bot_auth] from the configuration. *)
Definition log_onwiki (zb : Bot.t) (event logpage prefix summary : string) :
    Py unit :=
  _ <- Bot.post zb {[ "action" := PyStr "edit";
                      "title" := PyStr (prefix ++ logpage);
                      "appendtext" := PyStr event;
                      "summary" := PyStr summary ]} csrf ;;
  ret tt.

(** [page.title()] and [page.title(as_url=True)] are pywikibot's:
    [Page_title page as_url].  The text written is a [str], which is its own
    [str()]. *)
Section log_local.
Variable Page : Type.
Variable Page_title : Page → bool → string.

Definition log_local (page : Page) (logfile : string) : Py unit :=
  with_open_a ("logs/" ++ logfile)
    (λ f, write f (str_text (PyStr (Page_title page false ++ " <" ++ WIKI_URL
                                    ++ Page_title page true ++ ">" ++ nl)))).
End log_local.

End utils.

(* ===================================================================== *)
(** * api.py *)
(* ===================================================================== *)

Module api.

Definition _API_URL : string := "https://test.wikipedia.org/w/api.php?".

Definition APIError__init__ (msg : string) (event : pyobj) : Py exn :=
  if truthy event then
    _ <- try_except
           (with_open_w "logs/APIError.json" (λ f, json_dump event f))
           (λ e, match e with
                 | TypeError =>
                     Some (with_open_w "logs/APIError.txt"
                             (λ f, write f (str_text event)))
                 | _ => None
                 end) ;;
    ret (APIError msg)
  else ret (APIError msg).

Definition raise_APIError {A} (msg : string) (event : pyobj) : Py A :=
  e <- APIError__init__ msg event ;; raise e.

Definition _request (methodname : Method) (kwargs : Kwargs) : Py JSON :=
  response <- send methodname _API_URL kwargs ;;
  if negb (Response_bool response) then
    raise_APIError (fmt_status_code response) (PyBytes (content response))
  else
    data <- try_except (Response_json response)
              (λ e, match e with
                    | JSONDecodeError =>
                        Some (raise_APIError "No JSON found."
                                (PyBytes (content response)))
                    | _ => None
                    end) ;;
    has_error <- contains "error" data ;;
    if has_error then raise_APIError "'error' field in response." (PyJSON data)
    else ret data.

Definition get (params : gmap string pyobj) : Py JSON :=
  _request GET
    (mkKwargs (dict_unpack {[ "format" := PyStr "json" ]} params) None).

Definition get_token (tokentype : TokenType) : Py JSON :=
  query <- get {[ "action" := PyStr "query";
                  "meta" := PyStr "tokens";
                  "type" := PyStr (TokenType_str tokentype) ]} ;;
  token <- try_except
             (q <- getitem query "query" ;;
              ts <- getitem q "tokens" ;;
              getitem ts (TokenType_str tokentype ++ "token"))
             (λ e, match e with
                   | KeyError _ =>
                       Some (raise_APIError "No token obtained." (PyJSON query))
                   | _ => None
                   end) ;;
  if eq_str token "+\\" then raise (ZBError "Empty token.")
  else ret token.

Definition post (params : gmap string pyobj) (tokentype : TokenType) : Py JSON :=
  let params' := dict_unpack {[ "format" := PyStr "json" ]} params in
  token <- get_token tokentype ;;
  _request POST (mkKwargs params' (Some {[ "token" := PyJSON token ]})).

Section get_page.
Variable Page : Type.
Variable Page_new : string → Z → Page.
Variable Page_exists : Page → Py bool.

Definition get_page (title : string) (ns : Z) (must_exist : bool) : Py Page :=
  let page := Page_new title ns in
  if must_exist then
    found <- Page_exists page ;;
    if negb found then raise (ZBError "Page does not exist") else ret page
  else ret page.
End get_page.

End api.

(* ===================================================================== *)
(** * Vocabulary of the properties *)
(* ===================================================================== *)

Definition json_sink : string := "logs/APIError.json".
Definition txt_sink : string := "logs/APIError.txt".

(** The remote end answers request [req], sent next from [w], with [r]. *)
Definition answers (w : World) (req : Request) (r : Response) : Prop :=
  remote w (sent w ++ [req])%list = Responds r.

(** The world once [req] has been sent. *)
Definition after_send (w : World) (req : Request) : World :=
  set_sent (sent w ++ [req])%list w.

(** The parameters a caller's mapping [P] is transmitted with. *)
Definition with_format (P : gmap string pyobj) : gmap string pyobj :=
  dict_unpack {[ "format" := PyStr "json" ]} P.

(** The request [get_token] issues for a token of type [tt]. *)
Definition token_params (tt : TokenType) : gmap string pyobj :=
  {[ "action" := PyStr "query"; "meta" := PyStr "tokens";
     "type" := PyStr (TokenType_str tt) ]}.

Definition token_query (url : string) (tt : TokenType) : Request :=
  mkRequest GET url (with_format (token_params tt)) None.

(** The request [post] issues for parameters [P] once it holds token [t]. *)
Definition post_request (url : string) (P : gmap string pyobj) (t : JSON) : Request :=
  mkRequest POST url (with_format P) (Some {[ "token" := PyJSON t ]}).

(** The request [get] issues for parameters [P]. *)
Definition get_request (url : string) (P : gmap string pyobj) : Request :=
  mkRequest GET url (with_format P) None.

(** The field ["<tokentype>token"] of the nested [query.tokens] mapping of a
    query response, when the path to it exists. *)
Definition as_dict (j : JSON) : option (gmap string JSON) :=
  match j with
  | JObj m => Some m
  | _ => None
  end.

Definition token_field (q : JSON) (tt : TokenType) : option JSON :=
  m ← as_dict q; q1 ← m !! "query"; m1 ← as_dict q1;
  ts ← m1 !! "tokens"; mt ← as_dict ts;
  mt !! (TokenType_str tt ++ "token").

(** A decoded body on which the test ['error' in data] is defined and
    false. *)
Definition error_free (d : JSON) : Prop :=
  match d with
  | JObj m => m !! "error" = None
  | JArr l => Forall (λ x, x ≠ JStr "error") l
  | JStr s => str_contains "error" s = false
  | JNull | JBool _ | JInt _ => False
  end.

(** A string shows all four credential fields of [a]. *)
Definition shows_all_fields (a : utils.Authorization.t) (s : string) : Prop :=
  str_contains (utils.Authorization.client_key a) s = true ∧
  str_contains (utils.Authorization.client_secret a) s = true ∧
  str_contains (utils.Authorization.access_key a) s = true ∧
  str_contains (utils.Authorization.access_secret a) s = true.

(** A decoded body with no top-level ['error'] key: an object without that
    key, or a value that has no keys at all. *)
Definition no_top_level_error (d : JSON) : Prop :=
  match d with
  | JObj m => m !! "error" = None
  | _ => True
  end.

(** Request [rq] carries the [format] the caller's mapping [P] asks for,
    ['json'] by default. *)
Definition transmits_format (P : gmap string pyobj) (rq : Request) : Prop :=
  req_params rq !! "format" = Some (default (PyStr "json") (P !! "format")).

(** What a call of [post P tt] that started in [w] and ended in [w'] has
    sent to [url]: the token query alone (the token was not obtained, nothing
    is posted), or the token query followed by one POST whose body is the
    single field [token], holding the token field of the answer to that very
    query. *)
Definition fresh_token_sent (url : string) (P : gmap string pyobj)
    (tt : TokenType) (w w' : World) : Prop :=
  sent w' = (sent w ++ [token_query url tt])%list
  ∨ ∃ r q t,
      answers w (token_query url tt) r ∧ json r = Some q ∧
      token_field q tt = Some t ∧
      sent w' = (sent w ++ [token_query url tt; post_request url P t])%list.

(** ** Sample data *)

Definition dq : string := String (ascii_of_nat 34) EmptyString.
Definition bytes_of (s : string) : list byte := list_byte_of_string s.

(** A world with nothing sent, no file, every path writable and a remote end
    that always gives the same answer. *)
Definition quiet_world (o : Outcome) : World := mkWorld (λ _, o) [] ∅ ∅.


Definition auth0 : utils.Authorization.t :=
  utils.Authorization.mk "CK-consumer" "CS-hidden" "AK-access" "AS-private".
Definition auth1 : utils.Authorization.t :=
  utils.Authorization.mk "CK-other" "CS-other" "AK-access" "AS-other".
Definition bot0 : utils.Bot.t := utils.Bot.mk auth0.

Definition resp_404 : Response :=
  mkResponse 404 (bytes_of "<h1>Not Found</h1>") None.
Definition resp_404_empty : Response := mkResponse 404 [] None.

(** Body [{"error": {"code": "badtoken"}}]. *)
Definition badtoken : JSON :=
  JObj {[ "error" := JObj {[ "code" := JStr "badtoken" ]} ]}.
Definition resp_badtoken : Response :=
  mkResponse 200
    (bytes_of ("{" ++ dq ++ "error" ++ dq ++ ": {" ++ dq ++ "code" ++ dq
               ++ ": " ++ dq ++ "badtoken" ++ dq ++ "}}"))
    (Some badtoken).

(** Body [{"query": {"tokens": {}}}]. *)
Definition no_tokens : JSON := JObj {[ "query" := JObj {[ "tokens" := JObj ∅ ]} ]}.

(** A token query answered with the token [tok]. *)
Definition tokens_of (tok : string) : JSON :=
  JObj {[ "query" := JObj {[ "tokens" := JObj {[ "csrftoken" := JStr tok ]} ]} ]}.
Definition resp_token (tok : string) : Response :=
  mkResponse 200 (bytes_of tok) (Some (tokens_of tok)).


(** Body [{"edit": {"result": "Success"}}]. *)
Definition edit_ok : JSON := JObj {[ "edit" := JObj {[ "result" := JStr "Success" ]} ]}.
Definition resp_edit_ok : Response :=
  mkResponse 200
    (bytes_of ("{" ++ dq ++ "edit" ++ dq ++ ": {" ++ dq ++ "result" ++ dq
               ++ ": " ++ dq ++ "Success" ++ dq ++ "}}"))
    (Some edit_ok).

(** A remote end that hands out a new token at every query (the token names
    the number of requests it has seen) and accepts every POST. *)
Definition issuing_remote (log : list Request) : Outcome :=
  match last log with
  | Some rq =>
      match req_method rq with
      | GET => Responds (resp_token ("token-" ++ NilZero.string_of_uint (Nat.to_uint (length log))))
      | POST => Responds resp_edit_ok
      end
  | None => Fails
  end.
Definition issuing_world : World := mkWorld issuing_remote [] ∅ ∅.

Definition edit_params : gmap string pyobj :=
  {[ "action" := PyStr "edit"; "title" := PyStr "Sandbox" ]}.

(** Body [not valid json{]. *)
Definition resp_garbage : Response :=
  mkResponse 200 (bytes_of "not valid json{") None.

(** Body [{"batchcomplete": true}]: a query answer with no [query] key. *)
Definition no_query : JSON := JObj {[ "batchcomplete" := JBool true ]}.
Definition resp_no_query : Response :=
  mkResponse 200
    (bytes_of ("{" ++ dq ++ "batchcomplete" ++ dq ++ ": true}"))
    (Some no_query).

(** Body [{"query": []}]: the value under [query] is no mapping. *)
Definition query_list : JSON := JObj {[ "query" := JArr [] ]}.
Definition resp_query_list : Response :=
  mkResponse 200 (bytes_of ("{" ++ dq ++ "query" ++ dq ++ ": []}"))
    (Some query_list).

(** The token [+\] with one backslash. *)
Definition plus_backslash : string := "+\".

(** A world whose sinks already hold an earlier report, beside another
    file. *)
Definition used_world (o : Outcome) : World :=
  mkWorld (λ _, o) [] ∅
    {[ json_sink := [json_text badtoken];
       txt_sink := [str_text (PyBytes (bytes_of "old"))];
       "logs/pages.txt" := [str_text (PyStr "Sandbox")] ]}.

(** Pages as pairs of a title and a namespace number, with a site on which
    exactly the page [Sandbox] of namespace 0 exists. *)
Definition toy_page : Type := string * Z.
Definition toy_exists (p : toy_page) : Py bool :=
  ret (String.eqb p.1 "Sandbox" && (p.2 =? 0)%Z).
Definition toy_exists_broken (p : toy_page) : Py bool := raise RequestException.
Definition toy_title (p : toy_page) (as_url : bool) : string :=
  if as_url then "url:" ++ p.1 else p.1.

(** Two worlds hold the same files, the two sinks aside. *)
Definition same_outside_sinks (w w' : World) : Prop :=
  ∀ p, p ≠ json_sink → p ≠ txt_sink → files w' !! p = files w !! p.

(** Nothing but the files differs between two worlds. *)
Definition same_network (w w' : World) : Prop :=
  sent w' = sent w ∧ remote w' = remote w ∧ denied w' = denied w.

(** The answer to [rq], sent next from [w], has a non-error status and
    decodes to a value on which the test ['error' in data] holds. *)
Definition reports_error_field (w : World) (rq : Request) : Prop :=
  ∃ r d, answers w rq r ∧ error_status (status_code r) = false ∧
         json r = Some d ∧
         (contains "error" d (after_send w rq)).1 = Return true.

(** The parameters of the edit [log_onwiki] posts. *)
Definition log_params (event logpage prefix summary : string) :
    gmap string pyobj :=
  {[ "action" := PyStr "edit"; "title" := PyStr (prefix ++ logpage);
     "appendtext" := PyStr event; "summary" := PyStr summary ]}.

(** The line [log_local] writes for a page. *)
Definition log_line {Page} (Page_title : Page → bool → string) (page : Page) :
    chunk :=
  str_text (PyStr (Page_title page false ++ " <" ++ utils.WIKI_URL
                   ++ Page_title page true ++ ">" ++ nl)).

(* ===================================================================== *)
(** * Basic facts about the run time *)
(* ===================================================================== *)

Lemma send_answered m url kw w r :
  answers w (mkRequest m url (kw_params kw) (kw_data kw)) r →
  send m url kw w
  = (Return r, after_send w (mkRequest m url (kw_params kw) (kw_data kw))).
Proof. intros H. unfold send, session_call. simpl. by rewrite H. Qed.

Lemma open_w_ok path w :
  path ∉ denied w →
  open_w path w = (Return path, set_files (<[path := []]> (files w)) w).
Proof. intros H. unfold open_w. by rewrite decide_False. Qed.

Lemma open_w_denied path w :
  path ∈ denied w → open_w path w = (Raise (OSError path), w).
Proof. intros H. unfold open_w. by rewrite decide_True. Qed.

Lemma open_then_write path c w :
  path ∉ denied w →
  with_open_w path (λ f, write f c) w
  = (Return tt, set_files (<[path := [c]]> (files w)) w).
Proof.
  intros H. unfold with_open_w, bind. rewrite open_w_ok by done.
  unfold write. simpl. by rewrite lookup_insert_eq, insert_insert_eq.
Qed.

Lemma prefix_app (p s : string) : String.prefix p (p ++ s) = true.
Proof.
  induction p as [|c p IH]; simpl.
  - by destruct s.
  - destruct (ascii_dec c c); [exact IH | done].
Qed.


Lemma contains_error_free d w :
  error_free d → contains "error" d w = (Return false, w).
Proof.
  destruct d as [| | | s|l|m]; simpl; try done.
  - intros ->. done.
  - intros H. unfold ret. f_equal. f_equal.
    induction H as [|x l Hx _ IH]; simpl; [done|].
    rewrite IH, orb_false_r. destruct x; simpl; try done.
    apply String.eqb_neq. congruence.
  - intros H. unfold ret. rewrite bool_decide_eq_false_2; [done|].
    rewrite H. by intros [? ?].
Qed.

Lemma contains_error_key m w :
  is_Some (m !! "error") → contains "error" (JObj m) w = (Return true, w).
Proof. intros H. simpl. unfold ret. by rewrite bool_decide_eq_true_2. Qed.

(* ===================================================================== *)
(** * The error reporter: [APIError.__init__] *)
(* ===================================================================== *)

Lemma api_raise_APIError A : @api.raise_APIError A = @utils.raise_APIError A.
Proof. reflexivity. Qed.

Section reporter.
Variables (msg : string) (w : World).

Lemma init_falsy event :
  truthy event = false →
  utils.APIError__init__ msg event w = (Return (APIError msg), w).
Proof. intros H. unfold utils.APIError__init__. by rewrite H. Qed.


Lemma init_json j :
  json_truthy j = true → json_sink ∉ denied w →
  utils.APIError__init__ msg (PyJSON j) w
  = (Return (APIError msg),
     set_files (<[json_sink := [json_text j]]> (files w)) w).
Proof.
  intros H Hd. unfold utils.APIError__init__. simpl. rewrite H.
  unfold bind at 1, try_except. fold json_sink.
  by rewrite open_then_write.
Qed.

Lemma init_bytes b :
  b ≠ [] → json_sink ∉ denied w → txt_sink ∉ denied w →
  utils.APIError__init__ msg (PyBytes b) w
  = (Return (APIError msg),
     set_files (<[txt_sink := [str_text (PyBytes b)]]>
                  (<[json_sink := []]> (files w))) w).
Proof.
  intros H Hj Ht. unfold utils.APIError__init__. simpl.
  rewrite bool_decide_eq_false_2 by done. simpl.
  unfold bind at 1, try_except, with_open_w at 1, bind at 1.
  fold json_sink txt_sink. rewrite open_w_ok by done. simpl.
  unfold raise. by rewrite open_then_write.
Qed.

Lemma init_bytes_txt_denied b :
  b ≠ [] → json_sink ∉ denied w → txt_sink ∈ denied w →
  utils.APIError__init__ msg (PyBytes b) w
  = (Raise (OSError txt_sink), set_files (<[json_sink := []]> (files w)) w).
Proof.
  intros H Hj Ht. unfold utils.APIError__init__. simpl.
  rewrite bool_decide_eq_false_2 by done. simpl.
  unfold bind at 1, try_except, with_open_w at 1, bind at 1.
  fold json_sink txt_sink. rewrite open_w_ok by done. simpl.
  unfold raise, with_open_w, bind. by rewrite open_w_denied.
Qed.

Lemma raise_of_init {A} event e w' :
  utils.APIError__init__ msg event w = (Return e, w') →
  @utils.raise_APIError A msg event w = (Raise e, w').
Proof. intros H. unfold utils.raise_APIError, bind. by rewrite H. Qed.

Lemma raise_of_init_failed {A} event e w' :
  utils.APIError__init__ msg event w = (Raise e, w') →
  @utils.raise_APIError A msg event w = (Raise e, w').
Proof. intros H. unfold utils.raise_APIError, bind. by rewrite H. Qed.
End reporter.

(** Whatever the payload and the state of the sinks, raising an [APIError]
    never returns normally. *)
Lemma raise_APIError_raises {A} msg event w :
  ∃ e, (@utils.raise_APIError A msg event w).1 = Raise e.
Proof.
  unfold utils.raise_APIError, bind.
  destruct (utils.APIError__init__ msg event w) as [[e|e] w']; simpl; eauto.
Qed.

(** Code after a [raise APIError(...)] does not run. *)
Lemma raise_APIError_absorb {A B} msg event (k : A → Py B) w :
  bind (utils.raise_APIError msg event) k w = utils.raise_APIError msg event w.
Proof.
  unfold utils.raise_APIError, bind.
  by destruct (utils.APIError__init__ msg event w) as [[e|e] w'].
Qed.

(** The reporter touches nothing but the files. *)
Lemma init_frame msg event w :
  let w' := (utils.APIError__init__ msg event w).2 in
  sent w' = sent w ∧ remote w' = remote w ∧ denied w' = denied w.
Proof.
  unfold utils.APIError__init__.
  destruct (truthy event); [|done].
  unfold bind, try_except, with_open_w, bind, open_w.
  destruct (decide ("logs/APIError.json" ∈ denied w)); [done|].
  destruct event; simpl; [|done].
  unfold raise, open_w. simpl.
  by destruct (decide ("logs/APIError.txt" ∈ denied w)).
Qed.

Lemma raise_APIError_frame {A} msg event w :
  let w' := (@utils.raise_APIError A msg event w).2 in
  sent w' = sent w ∧ remote w' = remote w ∧ denied w' = denied w.
Proof.
  pose proof (init_frame msg event w) as H. simpl in *.
  unfold utils.raise_APIError, bind.
  by destruct (utils.APIError__init__ msg event w) as [[e|e] w'].
Qed.

(* ===================================================================== *)
(** * The dispatcher: [api._request] and [utils.Bot._api] *)
(* ===================================================================== *)

Section dispatcher.
Variables (self : utils.Bot.t) (m : Method) (kw : Kwargs) (w : World).

Local Abbreviation req_api :=
  (mkRequest m api._API_URL (kw_params kw) (kw_data kw)).
Local Abbreviation req_utils :=
  (mkRequest m utils.API_URL (kw_params kw) (kw_data kw)).

Lemma api_request_transport_failure :
  remote w (sent w ++ [req_api])%list = Fails →
  api._request m kw w = (Raise RequestException, after_send w req_api).
Proof.
  intros H. unfold api._request, bind, send, session_call. simpl.
  by rewrite H.
Qed.

Lemma api_request_error_status r :
  answers w req_api r → error_status (status_code r) = true →
  api._request m kw w
  = api.raise_APIError (fmt_status_code r) (PyBytes (content r))
      (after_send w req_api).
Proof.
  intros Ha Hs. unfold api._request, bind at 1.
  rewrite (send_answered _ _ _ _ _ Ha).
  unfold Response_bool. by rewrite Hs.
Qed.

Lemma utils_api_error_status r :
  answers w req_utils r → error_status (status_code r) = true →
  utils.Bot._api self m kw w
  = utils.raise_APIError (fmt_status_code r) (PyBytes (content r))
      (after_send w req_utils).
Proof.
  intros Ha Hs. unfold utils.Bot._api, bind at 1.
  rewrite (send_answered _ _ _ _ _ Ha).
  unfold Response_bool. by rewrite Hs.
Qed.

Lemma api_request_no_json r :
  answers w req_api r → error_status (status_code r) = false →
  json r = None →
  api._request m kw w
  = api.raise_APIError "No JSON found." (PyBytes (content r))
      (after_send w req_api).
Proof.
  intros Ha Hs Hj. unfold api._request, bind at 1.
  rewrite (send_answered _ _ _ _ _ Ha).
  unfold Response_bool. rewrite Hs. simpl.
  unfold bind at 1, try_except, Response_json. rewrite Hj.
  unfold raise at 1. rewrite api_raise_APIError.
  apply (raise_APIError_absorb (A:=JSON) (B:=JSON)).
Qed.

Lemma api_request_error_field r mj :
  answers w req_api r → error_status (status_code r) = false →
  json r = Some (JObj mj) → is_Some (mj !! "error") →
  api._request m kw w
  = api.raise_APIError "'error' field in response." (PyJSON (JObj mj))
      (after_send w req_api).
Proof.
  intros Ha Hs Hj He. unfold api._request, bind at 1.
  rewrite (send_answered _ _ _ _ _ Ha).
  unfold Response_bool. rewrite Hs. simpl.
  unfold bind at 1, try_except, Response_json. rewrite Hj.
  unfold ret at 1. unfold bind at 1.
  by rewrite contains_error_key.
Qed.

Lemma utils_api_error_field r mj :
  answers w req_utils r → error_status (status_code r) = false →
  json r = Some (JObj mj) → is_Some (mj !! "error") →
  utils.Bot._api self m kw w
  = utils.raise_APIError "'error' field in response." (PyBytes (content r))
      (after_send w req_utils).
Proof.
  intros Ha Hs Hj He. unfold utils.Bot._api, bind at 1.
  rewrite (send_answered _ _ _ _ _ Ha).
  unfold Response_bool. rewrite Hs. simpl.
  unfold bind at 1, try_except, Response_json. rewrite Hj.
  unfold ret at 1. unfold bind at 1.
  by rewrite contains_error_key.
Qed.

Lemma api_request_returns r d :
  answers w req_api r → error_status (status_code r) = false →
  json r = Some d → error_free d →
  api._request m kw w = (Return d, after_send w req_api).
Proof.
  intros Ha Hs Hj He. unfold api._request, bind at 1.
  rewrite (send_answered _ _ _ _ _ Ha).
  unfold Response_bool. rewrite Hs. simpl.
  unfold bind at 1, try_except, Response_json. rewrite Hj.
  unfold ret at 1. unfold bind at 1.
  by rewrite contains_error_free.
Qed.

Lemma utils_api_returns r d :
  answers w req_utils r → error_status (status_code r) = false →
  json r = Some d → error_free d →
  utils.Bot._api self m kw w = (Return d, after_send w req_utils).
Proof.
  intros Ha Hs Hj He. unfold utils.Bot._api, bind at 1.
  rewrite (send_answered _ _ _ _ _ Ha).
  unfold Response_bool. rewrite Hs. simpl.
  unfold bind at 1, try_except, Response_json. rewrite Hj.
  unfold ret at 1. unfold bind at 1.
  by rewrite contains_error_free.
Qed.

(** Each dispatch sends exactly one request, whatever comes back. *)
Lemma api_request_sent :
  sent (api._request m kw w).2 = (sent w ++ [req_api])%list.
Proof.
  unfold api._request.
  change (@api.raise_APIError) with (@utils.raise_APIError).
  unfold bind at 1, send, session_call. simpl.
  destruct (remote w _) as [r|]; [|done].
  destruct (negb (Response_bool r)).
  { by destruct (raise_APIError_frame (A:=JSON) (fmt_status_code r)
                   (PyBytes (content r)) (set_sent (sent w ++ [req_api]) w))
      as [-> _]. }
  unfold bind at 1, try_except, Response_json.
  destruct (json r) as [d|].
  - unfold ret at 1, bind at 1.
    destruct d; simpl; try done;
      match goal with |- context [if ?b then _ else _] => destruct b end;
      try done;
      match goal with
      | |- context [utils.raise_APIError ?a ?b ?c] =>
          by destruct (raise_APIError_frame (A:=JSON) a b c) as [-> _]
      end.
  - unfold raise at 1.
    pose proof (raise_APIError_frame (A:=JSON) "No JSON found."
                  (PyBytes (content r)) (set_sent (sent w ++ [req_api]) w))
      as [Hf _].
    destruct (raise_APIError_raises (A:=JSON) "No JSON found."
                (PyBytes (content r)) (set_sent (sent w ++ [req_api]) w))
      as [e He].
    destruct (utils.raise_APIError _ _ _) as [[?|?] ?]; simpl in *;
      [discriminate | done].
Qed.

Lemma utils_api_sent :
  sent (utils.Bot._api self m kw w).2 = (sent w ++ [req_utils])%list.
Proof.
  unfold utils.Bot._api, bind at 1, send, session_call. simpl.
  destruct (remote w _) as [r|]; [|done].
  destruct (negb (Response_bool r)).
  { by destruct (raise_APIError_frame (A:=JSON) (fmt_status_code r)
                   (PyBytes (content r)) (set_sent (sent w ++ [req_utils]) w))
      as [-> _]. }
  unfold bind at 1, try_except, Response_json.
  destruct (json r) as [d|].
  - unfold ret at 1, bind at 1.
    destruct d; simpl; try done;
      match goal with |- context [if ?b then _ else _] => destruct b end;
      try done;
      match goal with
      | |- context [utils.raise_APIError ?a ?b ?c] =>
          by destruct (raise_APIError_frame (A:=JSON) a b c) as [-> _]
      end.
  - unfold raise at 1.
    pose proof (raise_APIError_frame (A:=JSON) "No JSON found."
                  (PyBytes (content r)) (set_sent (sent w ++ [req_utils]) w))
      as [Hf _].
    destruct (raise_APIError_raises (A:=JSON) "No JSON found."
                (PyBytes (content r)) (set_sent (sent w ++ [req_utils]) w))
      as [e He].
    destruct (utils.raise_APIError _ _ _) as [[?|?] ?]; simpl in *;
      [discriminate | done].
Qed.
End dispatcher.

Section dispatcher_inversion.
Variables (self : utils.Bot.t) (m : Method) (kw : Kwargs) (w : World).

Local Abbreviation req_api :=
  (mkRequest m api._API_URL (kw_params kw) (kw_data kw)).
Local Abbreviation req_utils :=
  (mkRequest m utils.API_URL (kw_params kw) (kw_data kw)).

(** A dispatch that returns has received a non-error response that
    decodes to the value returned, and has written no file. *)
Lemma api_request_inv d w1 :
  api._request m kw w = (Return d, w1) →
  ∃ r, answers w req_api r ∧ error_status (status_code r) = false ∧
       json r = Some d ∧ w1 = after_send w req_api.
Proof.
  unfold api._request.
  change (@api.raise_APIError) with (@utils.raise_APIError).
  unfold bind at 1, send, session_call. simpl.
  destruct (remote w _) as [r|] eqn:Hr; [|done].
  unfold Response_bool. rewrite negb_involutive.
  destruct (error_status (status_code r)) eqn:Hs.
  { intros H. destruct (raise_APIError_raises (A:=JSON) (fmt_status_code r)
      (PyBytes (content r)) (set_sent (sent w ++ [req_api]) w)) as [e He].
    rewrite H in He. discriminate. }
  unfold bind at 1, try_except, Response_json.
  destruct (json r) as [d'|] eqn:Hj.
  - unfold ret at 1, bind at 1.
    destruct (contains "error" d' _) as [[[]|e] w'] eqn:Hc.
    + intros H. destruct (raise_APIError_raises (A:=JSON)
        "'error' field in response." (PyJSON d') w') as [e He].
      rewrite H in He. discriminate.
    + unfold ret. intros [= <- <-]. exists r. split_and!; try done.
      destruct d'; simpl in Hc; unfold ret, raise in Hc; by simplify_eq.
    + done.
  - unfold raise at 1. intros H.
    destruct (raise_APIError_raises (A:=JSON) "No JSON found."
                (PyBytes (content r)) (set_sent (sent w ++ [req_api]) w))
      as [e He].
    destruct (utils.raise_APIError _ _ _) as [[?|?] ?]; simpl in *;
      discriminate.
Qed.

Lemma utils_api_inv d w1 :
  utils.Bot._api self m kw w = (Return d, w1) →
  ∃ r, answers w req_utils r ∧ error_status (status_code r) = false ∧
       json r = Some d ∧ w1 = after_send w req_utils.
Proof.
  unfold utils.Bot._api.
  unfold bind at 1, send, session_call. simpl.
  destruct (remote w _) as [r|] eqn:Hr; [|done].
  unfold Response_bool. rewrite negb_involutive.
  destruct (error_status (status_code r)) eqn:Hs.
  { intros H. destruct (raise_APIError_raises (A:=JSON) (fmt_status_code r)
      (PyBytes (content r)) (set_sent (sent w ++ [req_utils]) w)) as [e He].
    rewrite H in He. discriminate. }
  unfold bind at 1, try_except, Response_json.
  destruct (json r) as [d'|] eqn:Hj.
  - unfold ret at 1, bind at 1.
    destruct (contains "error" d' _) as [[[]|e] w'] eqn:Hc.
    + intros H. destruct (raise_APIError_raises (A:=JSON)
        "'error' field in response." (PyBytes (content r)) w') as [e He].
      rewrite H in He. discriminate.
    + unfold ret. intros [= <- <-]. exists r. split_and!; try done.
      destruct d'; simpl in Hc; unfold ret, raise in Hc; by simplify_eq.
    + done.
  - unfold raise at 1. intros H.
    destruct (raise_APIError_raises (A:=JSON) "No JSON found."
                (PyBytes (content r)) (set_sent (sent w ++ [req_utils]) w))
      as [e He].
    destruct (utils.raise_APIError _ _ _) as [[?|?] ?]; simpl in *;
      discriminate.
Qed.
End dispatcher_inversion.

(* ===================================================================== *)
(** * Token extraction: [query['query']['tokens'][tokentype + 'token']] *)
(* ===================================================================== *)

Section extraction.
Variables (query : JSON) (tt : TokenType) (w : World).

Local Abbreviation extract :=
  (q <- getitem query "query" ;;
   ts <- getitem q "tokens" ;;
   getitem ts (TokenType_str tt ++ "token")).

Lemma extract_frame : (extract w).2 = w.
Proof.
  unfold extract, bind, getitem, ret, raise.
  repeat (case_match; simplify_eq; simpl; try done).
Qed.

Lemma extract_returns t :
  token_field query tt = Some t → extract w = (Return t, w).
Proof.
  unfold token_field, extract, bind, getitem, ret, raise, as_dict.
  intros H. repeat (case_match; simplify_eq/=; try done).
Qed.

Lemma extract_returns_inv t w' :
  extract w = (Return t, w') → token_field query tt = Some t.
Proof.
  unfold token_field, extract, bind, getitem, ret, raise, as_dict.
  intros H. repeat (case_match; simplify_eq/=; try done).
  by rewrite H.
Qed.

End extraction.

(* ===================================================================== *)
(** * The client: [get], [get_token], [post] *)
(* ===================================================================== *)

(** The proofs for the two modules run the same script, on the functions
    and dispatcher lemmas of each. *)
Ltac token_sent_script get_token get url dispatch_sent :=
  let tt := fresh "tt" in let w := fresh "w" in
  let query := fresh "query" in let w1 := fresh "w1" in
  let Hs := fresh "Hs" in let Hf := fresh "Hf" in
  let t := fresh "t" in let e := fresh "e" in let w2 := fresh "w2" in
  intros tt w; unfold get_token;
  try change (@api.raise_APIError) with (@utils.raise_APIError);
  unfold bind at 1;
  match goal with
  | |- context [get ?P w] =>
      pose proof (dispatch_sent GET (mkKwargs (with_format P) None) w) as Hs;
      change (sent (get P w).2 = (sent w ++ [token_query url tt])%list) in Hs;
      destruct (get P w) as [[query|e] w1]; simpl in Hs; [|done]
  end;
  unfold bind at 1, try_except;
  match goal with
  | |- context [bind ?a ?k w1] =>
      pose proof (extract_frame query tt w1) as Hf; cbv zeta in Hf;
      destruct (bind a k w1) as [[t|e] w2]; simpl in Hf; subst w2
  end;
  [ by destruct (eq_str t "+\\")
  | destruct e; try done;
    match goal with
    | |- context [utils.raise_APIError ?a ?b ?c] =>
        let Hr := fresh "Hr" in let e' := fresh "e'" in
        let He' := fresh "He'" in
        pose proof (raise_APIError_frame (A:=JSON) a b c) as [Hr _];
        destruct (raise_APIError_raises (A:=JSON) a b c) as [e' He'];
        destruct (utils.raise_APIError a b c) as [[?|?] ?]; simpl in *;
        [discriminate | congruence]
    end ].

Ltac token_inv_script get_token get url dispatch_inv :=
  let tt := fresh "tt" in let w := fresh "w" in
  let t := fresh "t" in let w' := fresh "w'" in
  let query := fresh "query" in let w1 := fresh "w1" in
  let Hi := fresh "Hi" in let Hf := fresh "Hf" in let Hx := fresh "Hx" in
  let r := fresh "r" in let Ha := fresh "Ha" in let Hs := fresh "Hs" in
  let Hj := fresh "Hj" in let Hq := fresh "Hq" in let H := fresh "H" in
  let t' := fresh "t'" in let e := fresh "e" in let w2 := fresh "w2" in
  intros tt w t w'; unfold get_token;
  try change (@api.raise_APIError) with (@utils.raise_APIError);
  unfold bind at 1;
  match goal with
  | |- context [get ?P w] =>
      pose proof (dispatch_inv GET (mkKwargs (with_format P) None) w) as Hi;
      change (∀ d w1, get P w = (Return d, w1) →
               ∃ r, answers w (token_query url tt) r ∧
                    error_status (status_code r) = false ∧ json r = Some d ∧
                    w1 = after_send w (token_query url tt)) in Hi;
      destruct (get P w) as [[query|e] w1]; [|done];
      destruct (Hi query w1 eq_refl) as (r & Ha & Hs & Hj & ->); clear Hi
  end;
  unfold bind at 1, try_except;
  match goal with
  | |- context [bind ?a ?k ?w0] =>
      pose proof (extract_frame query tt w0) as Hf; cbv zeta in Hf;
      pose proof (extract_returns_inv query tt w0) as Hx; cbv zeta in Hx;
      destruct (bind a k w0) as [[t'|e] w2]; simpl in Hf; subst w2
  end;
  [ destruct (eq_str t' "+\\") eqn:Hq; [done|];
    unfold ret; intros [= <- <-]; exists r, query; split_and!; eauto
  | destruct e; try done;
    match goal with
    | |- context [utils.raise_APIError ?a ?b ?c] =>
        let e' := fresh "e'" in let He' := fresh "He'" in
        destruct (raise_APIError_raises (A:=JSON) a b c) as [e' He'];
        destruct (utils.raise_APIError a b c) as [[?|?] ?]; simpl in *;
        discriminate
    end ].

Lemma api_get_token_sent : ∀ tt w,
  sent (api.get_token tt w).2 = (sent w ++ [token_query api._API_URL tt])%list.
Proof.
  token_sent_script api.get_token api.get api._API_URL api_request_sent.
Qed.

Lemma api_get_token_inv : ∀ tt w t w',
  api.get_token tt w = (Return t, w') →
  ∃ r q, answers w (token_query api._API_URL tt) r ∧
         error_status (status_code r) = false ∧ json r = Some q ∧
         token_field q tt = Some t ∧ eq_str t "+\\" = false ∧
         w' = after_send w (token_query api._API_URL tt).
Proof.
  token_inv_script api.get_token api.get api._API_URL api_request_inv.
Qed.

Ltac token_forward_script get_token get_returns :=
  unfold get_token;
  try change (@api.raise_APIError) with (@utils.raise_APIError);
  unfold bind at 1; erewrite get_returns by eassumption;
  unfold bind at 1, try_except;
  match goal with
  | |- context [after_send ?w ?rq] => set (w1 := after_send w rq)
  end.

Section client_api_forward.
Variables (tt : TokenType) (w : World) (r : Response).

Local Abbreviation tq := (token_query api._API_URL tt).

Lemma api_get_returns P r' d :
  answers w (get_request api._API_URL P) r' →
  error_status (status_code r') = false →
  json r' = Some d → error_free d →
  api.get P w = (Return d, after_send w (get_request api._API_URL P)).
Proof. intros. unfold api.get. by erewrite api_request_returns. Qed.

Hypothesis Hanswer : answers w tq r.
Hypothesis Hstatus : error_status (status_code r) = false.

Lemma api_get_token_returns q t :
  json r = Some q → error_free q →
  token_field q tt = Some t → eq_str t "+\\" = false →
  api.get_token tt w = (Return t, after_send w tq).
Proof.
  intros Hj He Ht Hq.
  token_forward_script api.get_token api_get_returns.
  pose proof (extract_returns q tt w1 t Ht) as Hx.
  cbv zeta in Hx. rewrite Hx. by rewrite Hq.
Qed.

Lemma api_get_token_sentinel q :
  json r = Some q → error_free q →
  token_field q tt = Some (JStr "+\\") →
  api.get_token tt w = (Raise (ZBError "Empty token."), after_send w tq).
Proof.
  intros Hj He Ht.
  token_forward_script api.get_token api_get_returns.
  pose proof (extract_returns q tt w1 _ Ht) as Hx.
  cbv zeta in Hx. by rewrite Hx.
Qed.

End client_api_forward.

Section client_utils.
Variable self : utils.Bot.t.

Lemma utils_get_token_sent : ∀ tt w,
  sent (utils.Bot.get_token self tt w).2
  = (sent w ++ [token_query utils.API_URL tt])%list.
Proof.
  token_sent_script utils.Bot.get_token (utils.Bot.get self) utils.API_URL
    (utils_api_sent self).
Qed.

Lemma utils_get_token_inv : ∀ tt w t w',
  utils.Bot.get_token self tt w = (Return t, w') →
  ∃ r q, answers w (token_query utils.API_URL tt) r ∧
         error_status (status_code r) = false ∧ json r = Some q ∧
         token_field q tt = Some t ∧ eq_str t "+\\" = false ∧
         w' = after_send w (token_query utils.API_URL tt).
Proof.
  token_inv_script utils.Bot.get_token (utils.Bot.get self) utils.API_URL
    (utils_api_inv self).
Qed.

Variables (tt : TokenType) (w : World) (r : Response).

Local Abbreviation tq := (token_query utils.API_URL tt).

Lemma utils_get_returns P r' d :
  answers w (get_request utils.API_URL P) r' →
  error_status (status_code r') = false →
  json r' = Some d → error_free d →
  utils.Bot.get self P w
  = (Return d, after_send w (get_request utils.API_URL P)).
Proof. intros. unfold utils.Bot.get. by erewrite utils_api_returns. Qed.

Hypothesis Hanswer : answers w tq r.
Hypothesis Hstatus : error_status (status_code r) = false.

Lemma utils_get_token_returns q t :
  json r = Some q → error_free q →
  token_field q tt = Some t → eq_str t "+\\" = false →
  utils.Bot.get_token self tt w = (Return t, after_send w tq).
Proof.
  intros Hj He Ht Hq.
  token_forward_script utils.Bot.get_token utils_get_returns.
  pose proof (extract_returns q tt w1 t Ht) as Hx.
  cbv zeta in Hx. rewrite Hx. by rewrite Hq.
Qed.

Lemma utils_get_token_sentinel q :
  json r = Some q → error_free q →
  token_field q tt = Some (JStr "+\\") →
  utils.Bot.get_token self tt w
  = (Raise (ZBError "Empty token."), after_send w tq).
Proof.
  intros Hj He Ht.
  token_forward_script utils.Bot.get_token utils_get_returns.
  pose proof (extract_returns q tt w1 _ Ht) as Hx.
  cbv zeta in Hx. by rewrite Hx.
Qed.

End client_utils.

(* ===================================================================== *)
(** * Request parameters *)
(* ===================================================================== *)

Lemma with_format_lookup (P : gmap string pyobj) :
  with_format P !! "format" = Some (default (PyStr "json") (P !! "format")).
Proof.
  unfold with_format, dict_unpack. rewrite lookup_union.
  rewrite lookup_singleton_eq. by destruct (P !! "format").
Qed.

Lemma with_format_other (P : gmap string pyobj) k :
  k ≠ "format" → with_format P !! k = P !! k.
Proof.
  intros H. unfold with_format, dict_unpack. rewrite lookup_union.
  rewrite lookup_singleton_ne by done. by destruct (P !! k).
Qed.

Lemma post_request_body url P t body :
  req_data (post_request url P t) = Some body →
  dom body = {[ "token" ]} ∧ body !! "token" = Some (PyJSON t).
Proof.
  intros [= <-]. split; [apply dom_singleton_L | apply lookup_singleton_eq].
Qed.

(* ===================================================================== *)
(** * [post] *)
(* ===================================================================== *)

Lemma api_post_sent P tt w :
  fresh_token_sent api._API_URL P tt w (api.post P tt w).2.
Proof.
  unfold api.post. cbv zeta. unfold bind.
  pose proof (api_get_token_sent tt w) as Hs.
  pose proof (api_get_token_inv tt w) as Hi.
  destruct (api.get_token tt w) as [[t|e] w1]; simpl in Hs.
  - right. destruct (Hi t w1 eq_refl) as (r & q & Ha & _ & Hj & Ht & _ & _).
    exists r, q, t. split_and!; try done.
    rewrite api_request_sent, Hs. by rewrite <- app_assoc.
  - by left.
Qed.

Lemma utils_post_sent self P tt w :
  fresh_token_sent utils.API_URL P tt w (utils.Bot.post self P tt w).2.
Proof.
  unfold utils.Bot.post. cbv zeta. unfold bind.
  pose proof (utils_get_token_sent self tt w) as Hs.
  pose proof (utils_get_token_inv self tt w) as Hi.
  destruct (utils.Bot.get_token self tt w) as [[t|e] w1]; simpl in Hs.
  - right. destruct (Hi t w1 eq_refl) as (r & q & Ha & _ & Hj & Ht & _ & _).
    exists r, q, t. split_and!; try done.
    rewrite utils_api_sent, Hs. by rewrite <- app_assoc.
  - by left.
Qed.

(** [post] sends its POST with the token that its own call of [get_token]
    returned, and sends none when that call raised. *)
Lemma api_post_with_token P tt w t w1 :
  api.get_token tt w = (Return t, w1) →
  api.post P tt w
  = api._request POST
      (mkKwargs (with_format P) (Some {[ "token" := PyJSON t ]})) w1 ∧
  sent (api.post P tt w).2
  = (sent w ++ [token_query api._API_URL tt;
                post_request api._API_URL P t])%list.
Proof.
  intros H. pose proof (api_get_token_sent tt w) as Hs. rewrite H in Hs.
  unfold api.post. cbv zeta. unfold bind. rewrite H. split; [done|].
  rewrite api_request_sent. simpl in Hs. rewrite Hs. by rewrite <- app_assoc.
Qed.

Lemma api_post_without_token P tt w e w1 :
  api.get_token tt w = (Raise e, w1) →
  api.post P tt w = (Raise e, w1) ∧
  sent w1 = (sent w ++ [token_query api._API_URL tt])%list.
Proof.
  intros H. pose proof (api_get_token_sent tt w) as Hs. rewrite H in Hs.
  unfold api.post. cbv zeta. unfold bind. by rewrite H.
Qed.

Lemma utils_post_with_token self P tt w t w1 :
  utils.Bot.get_token self tt w = (Return t, w1) →
  utils.Bot.post self P tt w
  = utils.Bot._api self POST
      (mkKwargs (with_format P) (Some {[ "token" := PyJSON t ]})) w1 ∧
  sent (utils.Bot.post self P tt w).2
  = (sent w ++ [token_query utils.API_URL tt;
                post_request utils.API_URL P t])%list.
Proof.
  intros H. pose proof (utils_get_token_sent self tt w) as Hs. rewrite H in Hs.
  unfold utils.Bot.post. cbv zeta. unfold bind. rewrite H. split; [done|].
  rewrite utils_api_sent. simpl in Hs. rewrite Hs. by rewrite <- app_assoc.
Qed.

Lemma utils_post_without_token self P tt w e w1 :
  utils.Bot.get_token self tt w = (Raise e, w1) →
  utils.Bot.post self P tt w = (Raise e, w1) ∧
  sent w1 = (sent w ++ [token_query utils.API_URL tt])%list.
Proof.
  intros H. pose proof (utils_get_token_sent self tt w) as Hs. rewrite H in Hs.
  unfold utils.Bot.post. cbv zeta. unfold bind. by rewrite H.
Qed.


Lemma utils_post_returns self P tt w t w1 r d :
  utils.Bot.get_token self tt w = (Return t, w1) →
  answers w1 (post_request utils.API_URL P t) r →
  error_status (status_code r) = false →
  json r = Some d → error_free d →
  utils.Bot.post self P tt w
  = (Return d, after_send w1 (post_request utils.API_URL P t)).
Proof.
  intros Ht Ha Hs Hj He. unfold utils.Bot.post. cbv zeta. unfold bind.
  rewrite Ht. by erewrite utils_api_returns.
Qed.

(** Two posts in a row: each POST carries the token of its own query, not
    the one fetched before. *)
Example no_token_reuse :
  sent (api.post edit_params csrf (api.post edit_params csrf issuing_world).2).2
  = [ token_query api._API_URL csrf;
      post_request api._API_URL edit_params (JStr "token-1");
      token_query api._API_URL csrf;
      post_request api._API_URL edit_params (JStr "token-3") ].
Proof. vm_compute. reflexivity. Qed.

(* ===================================================================== *)
(** * The claims *)
(* ===================================================================== *)

(** C1.  Every POST request sent by [post params tokentype] has a body with
    exactly one field, [token], and its value is what the call of
    [get_token tokentype] made by this same [post] returned, that is, the
    token field of the answer to the token query this call has just sent.
    The only requests a call sends are that query and, if a token came back,
    the POST; when [get_token] raises, [post] raises the same and posts
    nothing.  Nothing is read from an earlier call: the world holds no
    token. *)
Theorem post_token_is_fresh :
  (∀ P tt w, fresh_token_sent api._API_URL P tt w (api.post P tt w).2) ∧
  (∀ self P tt w,
     fresh_token_sent utils.API_URL P tt w (utils.Bot.post self P tt w).2) ∧
  (∀ P tt w t w1,
     api.get_token tt w = (Return t, w1) →
     sent (api.post P tt w).2
     = (sent w ++ [token_query api._API_URL tt;
                   post_request api._API_URL P t])%list) ∧
  (∀ self P tt w t w1,
     utils.Bot.get_token self tt w = (Return t, w1) →
     sent (utils.Bot.post self P tt w).2
     = (sent w ++ [token_query utils.API_URL tt;
                   post_request utils.API_URL P t])%list) ∧
  (∀ P tt w e w1,
     api.get_token tt w = (Raise e, w1) →
     api.post P tt w = (Raise e, w1) ∧
     sent w1 = (sent w ++ [token_query api._API_URL tt])%list) ∧
  (∀ self P tt w e w1,
     utils.Bot.get_token self tt w = (Raise e, w1) →
     utils.Bot.post self P tt w = (Raise e, w1) ∧
     sent w1 = (sent w ++ [token_query utils.API_URL tt])%list) ∧
  (∀ url P t body,
     req_data (post_request url P t) = Some body →
     dom body = {[ "token" ]} ∧ body !! "token" = Some (PyJSON t)).
Proof.
  split_and!.
  - apply api_post_sent.
  - apply utils_post_sent.
  - intros. by eapply api_post_with_token.
  - intros. by eapply utils_post_with_token.
  - intros. by eapply api_post_without_token.
  - intros. by eapply utils_post_without_token.
  - apply post_request_body.
Qed.

Lemma post_token_is_fresh_witness :
  api.get_token csrf issuing_world
  = (Return (JStr "token-1"),
     after_send issuing_world (token_query api._API_URL csrf)) ∧
  sent (api.post edit_params csrf issuing_world).2
  = [ token_query api._API_URL csrf;
      post_request api._API_URL edit_params (JStr "token-1") ] ∧
  fresh_token_sent api._API_URL edit_params csrf issuing_world
    (api.post edit_params csrf issuing_world).2.
Proof.
  split; [reflexivity|]. split.
  - apply (proj1 (proj2 (proj2 post_token_is_fresh)) edit_params csrf
             issuing_world (JStr "token-1")
             (after_send issuing_world (token_query api._API_URL csrf))).
    reflexivity.
  - apply (proj1 post_token_is_fresh).
Defined.

(** C2.  Whatever mapping [P] is passed to [get] or [post], the request sent
    for it has a [format] parameter: ['json'] when [P] has none, [P]'s own
    value when it has one.  The other parameters are [P]'s.  [get] always
    sends that request.  [post] sends it, after its token query, as soon as
    [get_token] has returned a token, and sends the token query alone when
    [get_token] raises; the token query itself carries [format=json]. *)
Theorem format_is_transmitted :
  (∀ P w, ∃ rq, sent (api.get P w).2 = (sent w ++ [rq])%list ∧
                req_method rq = GET ∧ transmits_format P rq ∧
                ∀ k, k ≠ "format" → req_params rq !! k = P !! k) ∧
  (∀ self P w, ∃ rq, sent (utils.Bot.get self P w).2 = (sent w ++ [rq])%list ∧
                     req_method rq = GET ∧ transmits_format P rq ∧
                     ∀ k, k ≠ "format" → req_params rq !! k = P !! k) ∧
  (∀ P tt w, ∃ new, sent (api.post P tt w).2 = (sent w ++ new)%list ∧
       Forall (λ rq, is_Some (req_params rq !! "format") ∧
                     (req_method rq = POST → transmits_format P rq)) new) ∧
  (∀ self P tt w, ∃ new,
       sent (utils.Bot.post self P tt w).2 = (sent w ++ new)%list ∧
       Forall (λ rq, is_Some (req_params rq !! "format") ∧
                     (req_method rq = POST → transmits_format P rq)) new) ∧
  (∀ P tt w t w1,
     api.get_token tt w = (Return t, w1) →
     ∃ rq, sent (api.post P tt w).2
           = (sent w ++ [token_query api._API_URL tt; rq])%list ∧
           req_method rq = POST ∧ req_url rq = api._API_URL ∧
           transmits_format P rq ∧
           ∀ k, k ≠ "format" → req_params rq !! k = P !! k) ∧
  (∀ self P tt w t w1,
     utils.Bot.get_token self tt w = (Return t, w1) →
     ∃ rq, sent (utils.Bot.post self P tt w).2
           = (sent w ++ [token_query utils.API_URL tt; rq])%list ∧
           req_method rq = POST ∧ req_url rq = utils.API_URL ∧
           transmits_format P rq ∧
           ∀ k, k ≠ "format" → req_params rq !! k = P !! k) ∧
  (∀ P tt w e w1,
     api.get_token tt w = (Raise e, w1) →
     sent (api.post P tt w).2
     = (sent w ++ [token_query api._API_URL tt])%list) ∧
  (∀ self P tt w e w1,
     utils.Bot.get_token self tt w = (Raise e, w1) →
     sent (utils.Bot.post self P tt w).2
     = (sent w ++ [token_query utils.API_URL tt])%list) ∧
  (∀ url tt,
     req_method (token_query url tt) = GET ∧
     req_params (token_query url tt) !! "format" = Some (PyStr "json") ∧
     ∀ k, k ≠ "format" →
          req_params (token_query url tt) !! k = token_params tt !! k).
Proof.
  assert (Hq : ∀ url tt, is_Some (req_params (token_query url tt) !! "format")).
  { intros. simpl. rewrite with_format_lookup. eauto. }
  assert (Hp : ∀ url P t, transmits_format P (post_request url P t)).
  { intros. apply with_format_lookup. }
  assert (Hpost : ∀ url P tt w w', fresh_token_sent url P tt w w' →
    ∃ new, sent w' = (sent w ++ new)%list ∧
      Forall (λ rq, is_Some (req_params rq !! "format") ∧
                    (req_method rq = POST → transmits_format P rq)) new).
  { intros url P tt w w' [H|(r & q & t & _ & _ & _ & H)]; eexists; (split; [exact H|]).
    - constructor; [split; [apply Hq | done] | constructor].
    - pose proof (Hp url P t) as Hp'. unfold transmits_format in Hp'.
      constructor; [split; [apply Hq | done] |].
      constructor; [split; [rewrite Hp'; eauto | intros _; apply Hp] |].
      constructor. }
  split_and!.
  - intros P w. eexists. split; [apply api_request_sent|].
    split_and!; [done | apply with_format_lookup | apply with_format_other].
  - intros self P w. eexists. split; [apply utils_api_sent|].
    split_and!; [done | apply with_format_lookup | apply with_format_other].
  - intros P tt w. eapply Hpost, api_post_sent.
  - intros self P tt w. eapply Hpost, utils_post_sent.
  - intros P tt w t w1 H. exists (post_request api._API_URL P t).
    split; [by eapply api_post_with_token|].
    split_and!; [done | done | apply Hp | apply with_format_other].
  - intros self P tt w t w1 H. exists (post_request utils.API_URL P t).
    split; [by eapply utils_post_with_token|].
    split_and!; [done | done | apply Hp | apply with_format_other].
  - intros P tt w e w1 H.
    destruct (api_post_without_token P tt w e w1 H) as [-> Hs]. exact Hs.
  - intros self P tt w e w1 H.
    destruct (utils_post_without_token self P tt w e w1 H) as [-> Hs]. exact Hs.
  - intros url tt. split_and!; [done | |].
    + simpl. rewrite with_format_lookup. by destruct tt.
    + apply with_format_other.
Qed.

Lemma format_is_transmitted_witness :
  api.get_token csrf issuing_world
  = (Return (JStr "token-1"),
     after_send issuing_world (token_query api._API_URL csrf)) ∧
  ∃ rq, sent (api.post edit_params csrf issuing_world).2
        = ([] ++ [token_query api._API_URL csrf; rq])%list ∧
        req_method rq = POST ∧ req_url rq = api._API_URL ∧
        transmits_format edit_params rq ∧
        ∀ k, k ≠ "format" → req_params rq !! k = edit_params !! k.
Proof.
  split; [reflexivity|].
  apply (proj1 (proj2 (proj2 (proj2 (proj2 format_is_transmitted))))
           edit_params csrf issuing_world (JStr "token-1")
           (after_send issuing_world (token_query api._API_URL csrf))).
  reflexivity.
Defined.

(** C3, at the response [{"error": {"code": "badtoken"}}] with status 200.
    Both dispatchers raise the [APIError] of kind [APIReportedError].
    [api._request] hands the decoded object to the reporter, which dumps it
    to the JSON sink.  [utils.Bot._api] hands it the raw body instead: the
    JSON sink is opened and left empty, and the text of the bytes goes to the
    text sink. *)
Theorem error_field_payload :
  let w := quiet_world (Responds resp_badtoken) in
  let out_api := api.get ∅ w in
  let out_utils := utils.Bot.get bot0 ∅ w in
  out_api.1 = Raise (APIError "'error' field in response.") ∧
  kind_of (APIError "'error' field in response.") = Some APIReportedError ∧
  files out_api.2 = {[ json_sink := [json_text badtoken] ]} ∧
  out_utils.1 = Raise (APIError "'error' field in response.") ∧
  files out_utils.2
  = {[ json_sink := [];
       txt_sink := [str_text (PyBytes (content resp_badtoken))] ]}.
Proof. vm_compute. by repeat split. Qed.




(** The check as the source writes it.  When the token query goes through
    and the token field of its answer is the literal [+\\] (a plus sign and
    two backslashes, as the raw string in the source reads), [get_token]
    raises [ZBError "Empty token."], which is no [APIError], and no file is
    touched: the only effect of the call is the query it sent. *)
Theorem empty_token_is_rejected tt w r q :
  error_status (status_code r) = false →
  json r = Some q → no_top_level_error q →
  token_field q tt = Some (JStr "+\\") →
  (answers w (token_query api._API_URL tt) r →
   api.get_token tt w
   = (Raise (ZBError "Empty token."),
      after_send w (token_query api._API_URL tt)) ∧
   files (api.get_token tt w).2 = files w) ∧
  (∀ self, answers w (token_query utils.API_URL tt) r →
   utils.Bot.get_token self tt w
   = (Raise (ZBError "Empty token."),
      after_send w (token_query utils.API_URL tt)) ∧
   files (utils.Bot.get_token self tt w).2 = files w) ∧
  kind_of (ZBError "Empty token.") = None ∧
  (∀ msg, ZBError "Empty token." ≠ APIError msg).
Proof.
  intros Hs Hj He Ht.
  assert (error_free q) as He'.
  { destruct q; try done. }
  split_and!; try done.
  - intros Ha. by erewrite api_get_token_sentinel.
  - intros self Ha. by erewrite utils_get_token_sentinel.
Qed.

Lemma empty_token_is_rejected_witness :
  token_field (tokens_of "+\\") csrf = Some (JStr "+\\") ∧
  api.get_token csrf (quiet_world (Responds (resp_token "+\\")))
  = (Raise (ZBError "Empty token."),
     after_send (quiet_world (Responds (resp_token "+\\")))
       (token_query api._API_URL csrf)).
Proof.
  split; [reflexivity|].
  apply (empty_token_is_rejected csrf
           (quiet_world (Responds (resp_token "+\\")))
           (resp_token "+\\") (tokens_of "+\\")); reflexivity.
Defined.

(** C5, at a token query answered with the empty token of the platform, the
    two characters plus sign and backslash.  [get_token] compares the token
    with the raw literal [+\\] of three characters, so the empty token is not
    recognised: both versions of [get_token] return it as a valid token, no
    [ZBError] is raised, and [post] sends it as the token of its POST.  Only
    the three-character string is rejected. *)
Theorem empty_token_is_accepted :
  let w := quiet_world (Responds (resp_token plus_backslash)) in
  String.length plus_backslash = 2 ∧ String.length "+\\" = 3 ∧
  token_field (tokens_of plus_backslash) csrf = Some (JStr plus_backslash) ∧
  api.get_token csrf w
  = (Return (JStr plus_backslash),
     after_send w (token_query api._API_URL csrf)) ∧
  utils.Bot.get_token bot0 csrf w
  = (Return (JStr plus_backslash),
     after_send w (token_query utils.API_URL csrf)) ∧
  sent (api.post edit_params csrf w).2
  = [ token_query api._API_URL csrf;
      post_request api._API_URL edit_params (JStr plus_backslash) ] ∧
  sent (utils.Bot.post bot0 edit_params csrf w).2
  = [ token_query utils.API_URL csrf;
      post_request utils.API_URL edit_params (JStr plus_backslash) ] ∧
  (api.get_token csrf (quiet_world (Responds (resp_token "+\\")))).1
  = Raise (ZBError "Empty token.").
Proof. vm_compute. by repeat split. Qed.










(** ** [Authorization.__repr__] and [Authorization.__str__] *)

Lemma append_assoc (a b c : string) : (a ++ b) ++ c = a ++ (b ++ c).
Proof.
  induction a as [|x a IH]; [done|].
  change (String x ((a ++ b) ++ c) = String x (a ++ b ++ c)). by rewrite IH.
Qed.

Lemma index_0_cons x b s :
  String.index 0 x (String b s)
  = if String.prefix x (String b s) then Some 0
    else match String.index 0 x s with
         | Some n => Some (S n)
         | None => None
         end.
Proof. reflexivity. Qed.

Lemma str_contains_mid (p x s : string) : str_contains x (p ++ x ++ s) = true.
Proof.
  unfold str_contains.
  assert (∃ n, String.index 0 x (p ++ x ++ s) = Some n) as [n ->]; [|done].
  induction p as [|c p [n IH]].
  - change (EmptyString ++ x ++ s) with (x ++ s).
    destruct (x ++ s) eqn:E.
    + destruct x; [by exists 0 | discriminate].
    + rewrite index_0_cons, <- E, prefix_app. eauto.
  - change (String c p ++ x ++ s) with (String c (p ++ x ++ s)).
    rewrite index_0_cons.
    destruct (String.prefix x (String c (p ++ x ++ s))); [eauto|].
    rewrite IH. eauto.
Qed.

Lemma str_contains_skip (p x s : string) :
  str_contains x s = true → str_contains x (p ++ s) = true.
Proof.
  unfold str_contains. intros H.
  induction p as [|c p IH]; [done|].
  change (String c p ++ s) with (String c (p ++ s)). rewrite index_0_cons.
  destruct (String.prefix x (String c (p ++ s))); [done|].
  by destruct (String.index 0 x (p ++ s)).
Qed.

Ltac find_field :=
  first [ apply (str_contains_mid EmptyString) | apply str_contains_skip; find_field ].

Lemma repr_shows_all_fields a :
  shows_all_fields a (utils.Authorization.__repr__ a).
Proof.
  destruct a as [ck cs ak asec].
  unfold shows_all_fields, utils.Authorization.__repr__. simpl.
  split_and!; find_field.
Qed.

(** C9, as the code has it.  [str] of an [Authorization] is
    [<Authorization object with access key K>] for its access key [K]: two
    values with the same access key have the same [str], whatever their
    other three fields.  [repr] shows all four fields in full. *)
Theorem str_shows_access_key_only :
  (∀ a, utils.Authorization.__str__ a
        = "<Authorization object with access key "
          ++ utils.Authorization.access_key a ++ ">") ∧
  (∀ a b, utils.Authorization.access_key a = utils.Authorization.access_key b →
          utils.Authorization.__str__ a = utils.Authorization.__str__ b) ∧
  (∀ a, shows_all_fields a (utils.Authorization.__repr__ a)).
Proof.
  split_and!.
  - done.
  - intros a b H. unfold utils.Authorization.__str__. by rewrite H.
  - apply repr_shows_all_fields.
Qed.

Lemma str_shows_access_key_only_witness :
  auth0 ≠ auth1 ∧
  utils.Authorization.__str__ auth0 = utils.Authorization.__str__ auth1.
Proof.
  split; [discriminate|].
  apply (proj1 (proj2 str_shows_access_key_only) auth0 auth1). reflexivity.
Defined.

(** C9 as stated fails: [repr] of an [Authorization] contains the client
    key, the client secret, the access key and the access secret, all in
    full. *)
Lemma repr_shows_the_secrets :
  utils.Authorization.__repr__ auth0
  = "Authorization(CK-consumer, CS-hidden, AK-access, AS-private)" ∧
  shows_all_fields auth0 (utils.Authorization.__repr__ auth0) ∧
  ¬ (∀ a, ¬ shows_all_fields a (utils.Authorization.__repr__ a) ∧
          ¬ shows_all_fields a (utils.Authorization.__str__ a)).
Proof.
  split_and!; [done | by vm_compute |].
  intros H. destruct (H auth0) as [Hr _]. apply Hr. by vm_compute.
Qed.

(** C10.  An [APIError] built with a falsy payload ([None], an empty dict,
    empty [bytes], ...) writes nothing: the constructor returns the
    exception and the world, both sinks included, is as it was.  So an
    error-status response with an empty body leaves the files alone. *)
Theorem falsy_payload_writes_nothing msg event w :
  truthy event = false →
  api.APIError__init__ msg event w = (Return (APIError msg), w) ∧
  utils.APIError__init__ msg event w = (Return (APIError msg), w) ∧
  api.raise_APIError (A:=JSON) msg event w = (Raise (APIError msg), w) ∧
  utils.raise_APIError (A:=JSON) msg event w = (Raise (APIError msg), w).
Proof.
  intros H. pose proof (init_falsy msg w event H) as Hi.
  split_and!; try done.
  - by apply raise_of_init.
  - by apply raise_of_init.
Qed.

Lemma falsy_payload_writes_nothing_witness :
  truthy (PyBytes []) = false ∧ truthy PyNone = false ∧
  truthy (PyJSON (JObj ∅)) = false ∧
  api.APIError__init__ "response.status_code=404" (PyBytes [])
    (quiet_world (Responds resp_404_empty))
  = (Return (APIError "response.status_code=404"),
     quiet_world (Responds resp_404_empty)).
Proof.
  do 3 (split; [reflexivity|]).
  apply (falsy_payload_writes_nothing "response.status_code=404" (PyBytes [])
           (quiet_world (Responds resp_404_empty))).
  reflexivity.
Defined.

Example empty_404_leaves_files :
  ∀ fs, files (api.get ∅ (mkWorld (λ _, Responds resp_404_empty) [] ∅ fs)).2 = fs.
Proof. done. Qed.

(* ===================================================================== *)
(** * Further properties of the dispatcher *)
(* ===================================================================== *)

Lemma utils_api_transport_failure self m kw w :
  remote w (sent w ++ [mkRequest m utils.API_URL (kw_params kw) (kw_data kw)])%list
  = Fails →
  utils.Bot._api self m kw w
  = (Raise RequestException,
     after_send w (mkRequest m utils.API_URL (kw_params kw) (kw_data kw))).
Proof.
  intros H. unfold utils.Bot._api, bind, send, session_call. simpl.
  by rewrite H.
Qed.

Lemma utils_api_no_json self m kw w r :
  answers w (mkRequest m utils.API_URL (kw_params kw) (kw_data kw)) r →
  error_status (status_code r) = false → json r = None →
  utils.Bot._api self m kw w
  = utils.raise_APIError "No JSON found." (PyBytes (content r))
      (after_send w (mkRequest m utils.API_URL (kw_params kw) (kw_data kw))).
Proof.
  intros Ha Hs Hj. unfold utils.Bot._api, bind at 1.
  rewrite (send_answered _ _ _ _ _ Ha).
  unfold Response_bool. rewrite Hs. simpl.
  unfold bind at 1, try_except, Response_json. rewrite Hj.
  unfold raise at 1.
  apply (raise_APIError_absorb (A:=JSON) (B:=JSON)).
Qed.

Lemma contains_false_inv d w w' :
  contains "error" d w = (Return false, w') → error_free d.
Proof.
  destruct d as [| | |s|l|m]; simpl; unfold ret, raise; try done.
  - by intros [= ->].
  - intros [= H _]. induction l as [|x l IH]; [constructor|].
    simpl in H. apply orb_false_iff in H as [Hx Hl].
    constructor; [|by apply IH].
    intros ->. by vm_compute in Hx.
  - intros [= H _]. apply bool_decide_eq_false_1 in H.
    destruct (m !! "error") eqn:E; [|done]. destruct H. eauto.
Qed.

(** What a report leaves of the files. *)
Lemma init_files_frame msg event w :
  same_outside_sinks w (utils.APIError__init__ msg event w).2.
Proof.
  intros p Hj Hx. unfold utils.APIError__init__.
  destruct (truthy event); [|done].
  unfold bind, try_except, with_open_w, bind, open_w.
  change "logs/APIError.json" with json_sink.
  change "logs/APIError.txt" with txt_sink.
  destruct (decide (json_sink ∈ denied w)); [done|].
  destruct event as [b|j]; simpl.
  - unfold raise, open_w. simpl.
    destruct (decide (txt_sink ∈ denied w)); simpl.
    + by rewrite lookup_insert_ne.
    + by rewrite !lookup_insert_ne.
  - by rewrite !lookup_insert_ne.
Qed.

Lemma raise_files_frame {A} msg event w :
  same_outside_sinks w (@utils.raise_APIError A msg event w).2.
Proof.
  pose proof (init_files_frame msg event w) as H.
  unfold utils.raise_APIError, bind.
  by destruct (utils.APIError__init__ msg event w) as [[e|e] w'].
Qed.

Lemma raise_bytes_reported {A} msg c w :
  json_sink ∉ denied w → txt_sink ∉ denied w →
  (@utils.raise_APIError A msg (PyBytes c) w).1 = Raise (APIError msg) ∧
  (c ≠ [] →
   files (@utils.raise_APIError A msg (PyBytes c) w).2
   = <[txt_sink := [str_text (PyBytes c)]]> (<[json_sink := []]> (files w))) ∧
  (c = [] → (@utils.raise_APIError A msg (PyBytes c) w).2 = w).
Proof.
  intros Hj Hx. destruct (decide (c = [])) as [->|He].
  - by rewrite (raise_of_init _ _ _ _ _ (init_falsy msg w (PyBytes []) eq_refl)).
  - by rewrite (raise_of_init _ _ _ _ _ (init_bytes msg w c He Hj Hx)).
Qed.

(** The dispatcher once the body is decoded: the membership test, then the
    report or the return. *)
Lemma api_request_decoded m kw w r d :
  answers w (mkRequest m api._API_URL (kw_params kw) (kw_data kw)) r →
  error_status (status_code r) = false → json r = Some d →
  api._request m kw w
  = (has_error <- contains "error" d ;;
     if has_error
     then utils.raise_APIError "'error' field in response." (PyJSON d)
     else ret d)
      (after_send w (mkRequest m api._API_URL (kw_params kw) (kw_data kw))).
Proof.
  intros Ha Hs Hj. unfold api._request, bind at 1.
  rewrite (send_answered _ _ _ _ _ Ha).
  unfold Response_bool. rewrite Hs. simpl.
  unfold bind at 1, try_except, Response_json. rewrite Hj.
  by unfold ret at 1.
Qed.

Lemma utils_api_decoded self m kw w r d :
  answers w (mkRequest m utils.API_URL (kw_params kw) (kw_data kw)) r →
  error_status (status_code r) = false → json r = Some d →
  utils.Bot._api self m kw w
  = (has_error <- contains "error" d ;;
     if has_error
     then utils.raise_APIError "'error' field in response."
            (PyBytes (content r))
     else ret d)
      (after_send w (mkRequest m utils.API_URL (kw_params kw) (kw_data kw))).
Proof.
  intros Ha Hs Hj. unfold utils.Bot._api, bind at 1.
  rewrite (send_answered _ _ _ _ _ Ha).
  unfold Response_bool. rewrite Hs. simpl.
  unfold bind at 1, try_except, Response_json. rewrite Hj.
  by unfold ret at 1.
Qed.

Lemma contains_frame k d w : (contains k d w).2 = w.
Proof. by destruct d. Qed.

(** Where a dispatch leaves the world: as it was once the request was sent,
    or as one report left it from there. *)
Lemma api_request_world m kw w :
  let w1 := after_send w (mkRequest m api._API_URL (kw_params kw) (kw_data kw)) in
  (api._request m kw w).2 = w1 ∨
  ∃ msg event,
    (api._request m kw w).2 = (utils.raise_APIError (A:=JSON) msg event w1).2.
Proof.
  cbv zeta.
  destruct (remote w (sent w ++ [mkRequest m api._API_URL (kw_params kw)
                                   (kw_data kw)])%list) as [r|] eqn:Hr.
  2: { left. by rewrite api_request_transport_failure. }
  destruct (error_status (status_code r)) eqn:Hs.
  { right. rewrite (api_request_error_status m kw w r Hr Hs). eauto. }
  destruct (json r) as [d|] eqn:Hj.
  2: { right. rewrite (api_request_no_json m kw w r Hr Hs Hj). eauto. }
  rewrite (api_request_decoded m kw w r d Hr Hs Hj). unfold bind.
  pose proof (contains_frame "error" d
    (after_send w (mkRequest m api._API_URL (kw_params kw) (kw_data kw)))) as Hc.
  destruct (contains "error" d _) as [[[]|e] w']; simpl in Hc; subst w'.
  - right. eauto.
  - by left.
  - by left.
Qed.

Lemma utils_api_world self m kw w :
  let w1 := after_send w (mkRequest m utils.API_URL (kw_params kw) (kw_data kw)) in
  (utils.Bot._api self m kw w).2 = w1 ∨
  ∃ msg event,
    (utils.Bot._api self m kw w).2
    = (utils.raise_APIError (A:=JSON) msg event w1).2.
Proof.
  cbv zeta.
  destruct (remote w (sent w ++ [mkRequest m utils.API_URL (kw_params kw)
                                   (kw_data kw)])%list) as [r|] eqn:Hr.
  2: { left. by rewrite utils_api_transport_failure. }
  destruct (error_status (status_code r)) eqn:Hs.
  { right. rewrite (utils_api_error_status self m kw w r Hr Hs). eauto. }
  destruct (json r) as [d|] eqn:Hj.
  2: { right. rewrite (utils_api_no_json self m kw w r Hr Hs Hj). eauto. }
  rewrite (utils_api_decoded self m kw w r d Hr Hs Hj). unfold bind.
  pose proof (contains_frame "error" d
    (after_send w (mkRequest m utils.API_URL (kw_params kw) (kw_data kw)))) as Hc.
  destruct (contains "error" d _) as [[[]|e] w']; simpl in Hc; subst w'.
  - right. eauto.
  - by left.
  - by left.
Qed.

(** X1.  A response with a non-error status whose body is not JSON makes the
    dispatcher execute [raise APIError("No JSON found.", response.content)].
    With the sinks writable the [APIError] reaches the caller; a non-empty
    body leaves its text in the text sink and the JSON sink empty, an empty
    body leaves the files as they were. *)
Theorem malformed_body_is_reported m kw w r :
  error_status (status_code r) = false → json r = None →
  let reported (out : Result JSON * World) :=
    json_sink ∉ denied w → txt_sink ∉ denied w →
    out.1 = Raise (APIError "No JSON found.") ∧
    (content r ≠ [] →
     files out.2
     = <[txt_sink := [str_text (PyBytes (content r))]]>
         (<[json_sink := []]> (files w))) ∧
    (content r = [] → files out.2 = files w) in
  kind_of_message "No JSON found." = Some MalformedResponse ∧
  (let rq := mkRequest m api._API_URL (kw_params kw) (kw_data kw) in
   answers w rq r →
   api._request m kw w
   = api.raise_APIError "No JSON found." (PyBytes (content r))
       (after_send w rq) ∧
   reported (api._request m kw w)) ∧
  (∀ self,
   let rq := mkRequest m utils.API_URL (kw_params kw) (kw_data kw) in
   answers w rq r →
   utils.Bot._api self m kw w
   = utils.raise_APIError "No JSON found." (PyBytes (content r))
       (after_send w rq) ∧
   reported (utils.Bot._api self m kw w)).
Proof.
  intros Hs Hj. cbv zeta. split_and!.
  - reflexivity.
  - intros Ha. rewrite (api_request_no_json m kw w r Ha Hs Hj).
    split; [done|]. intros Hd Hx. rewrite api_raise_APIError.
    destruct (raise_bytes_reported (A:=JSON) "No JSON found." (content r)
                (after_send w (mkRequest m api._API_URL (kw_params kw)
                                 (kw_data kw))) Hd Hx) as (H1 & H2 & H3).
    split_and!; [done | done |]. intros He. by rewrite (H3 He).
  - intros self Ha. rewrite (utils_api_no_json self m kw w r Ha Hs Hj).
    split; [done|]. intros Hd Hx.
    destruct (raise_bytes_reported (A:=JSON) "No JSON found." (content r)
                (after_send w (mkRequest m utils.API_URL (kw_params kw)
                                 (kw_data kw))) Hd Hx) as (H1 & H2 & H3).
    split_and!; [done | done |]. intros He. by rewrite (H3 He).
Qed.

Lemma malformed_body_is_reported_witness :
  json resp_garbage = None ∧
  (api._request GET (mkKwargs ∅ None) (quiet_world (Responds resp_garbage))).1
  = Raise (APIError "No JSON found.").
Proof.
  split; [reflexivity|].
  refine (proj1 (proj2 (proj1 (proj2 (malformed_body_is_reported GET
            (mkKwargs ∅ None) (quiet_world (Responds resp_garbage))
            resp_garbage eq_refl eq_refl)) eq_refl) _ _)).
  - vm_compute. set_solver.
  - vm_compute. set_solver.
Defined.

Lemma api_get_token_transport_failure tt w :
  remote w (sent w ++ [token_query api._API_URL tt])%list = Fails →
  api.get_token tt w
  = (Raise RequestException, after_send w (token_query api._API_URL tt)).
Proof.
  intros H. unfold api.get_token, bind at 1, api.get.
  by rewrite api_request_transport_failure.
Qed.

Lemma utils_get_token_transport_failure self tt w :
  remote w (sent w ++ [token_query utils.API_URL tt])%list = Fails →
  utils.Bot.get_token self tt w
  = (Raise RequestException, after_send w (token_query utils.API_URL tt)).
Proof.
  intros H. unfold utils.Bot.get_token, bind at 1, utils.Bot.get.
  by rewrite utils_api_transport_failure.
Qed.

(** X2.  When the exchange itself fails, the session's exception reaches the
    caller of the dispatcher, of [get_token] and of [post] as it is: it is
    not turned into an [APIError], no file is written, and the failed request
    is the only one sent ([post] sends no POST and makes no second
    attempt). *)
Theorem transport_failure_propagates w :
  (∀ m kw,
     remote w (sent w ++ [mkRequest m api._API_URL (kw_params kw)
                            (kw_data kw)])%list = Fails →
     api._request m kw w
     = (Raise RequestException,
        after_send w (mkRequest m api._API_URL (kw_params kw) (kw_data kw)))) ∧
  (∀ self m kw,
     remote w (sent w ++ [mkRequest m utils.API_URL (kw_params kw)
                            (kw_data kw)])%list = Fails →
     utils.Bot._api self m kw w
     = (Raise RequestException,
        after_send w (mkRequest m utils.API_URL (kw_params kw) (kw_data kw)))) ∧
  (∀ P tt,
     remote w (sent w ++ [token_query api._API_URL tt])%list = Fails →
     api.get_token tt w
     = (Raise RequestException, after_send w (token_query api._API_URL tt)) ∧
     api.post P tt w
     = (Raise RequestException, after_send w (token_query api._API_URL tt))) ∧
  (∀ self P tt,
     remote w (sent w ++ [token_query utils.API_URL tt])%list = Fails →
     utils.Bot.get_token self tt w
     = (Raise RequestException, after_send w (token_query utils.API_URL tt)) ∧
     utils.Bot.post self P tt w
     = (Raise RequestException, after_send w (token_query utils.API_URL tt))).
Proof.
  split_and!.
  - intros. by apply api_request_transport_failure.
  - intros. by apply utils_api_transport_failure.
  - intros P tt H.
    pose proof (api_get_token_transport_failure tt w H) as Ht.
    split; [done|]. by apply api_post_without_token.
  - intros self P tt H.
    pose proof (utils_get_token_transport_failure self tt w H) as Ht.
    split; [done|]. by apply utils_post_without_token.
Qed.

Lemma transport_failure_propagates_witness :
  api.post edit_params csrf (quiet_world Fails)
  = (Raise RequestException,
     after_send (quiet_world Fails) (token_query api._API_URL csrf)).
Proof.
  apply (proj1 (proj2 (proj2 (transport_failure_propagates (quiet_world Fails))))
           edit_params csrf).
  reflexivity.
Defined.

(** X3.  Whatever comes back, one dispatch sends exactly one request and
    leaves alone the remote end, the set of unwritable paths and every file
    other than the two sinks. *)
Theorem dispatch_frame m kw w :
  (let out := api._request m kw w in
   sent out.2
   = (sent w ++ [mkRequest m api._API_URL (kw_params kw) (kw_data kw)])%list ∧
   remote out.2 = remote w ∧ denied out.2 = denied w ∧
   same_outside_sinks w out.2) ∧
  (∀ self,
   let out := utils.Bot._api self m kw w in
   sent out.2
   = (sent w ++ [mkRequest m utils.API_URL (kw_params kw) (kw_data kw)])%list ∧
   remote out.2 = remote w ∧ denied out.2 = denied w ∧
   same_outside_sinks w out.2).
Proof.
  assert (∀ rq w', w' = after_send w rq ∨
            (∃ msg event,
               w' = (utils.raise_APIError (A:=JSON) msg event
                       (after_send w rq)).2) →
          remote w' = remote w ∧ denied w' = denied w ∧
          same_outside_sinks w w') as Hfr.
  { intros rq w' [->|(msg & event & ->)]; [done|].
    destruct (raise_APIError_frame (A:=JSON) msg event (after_send w rq))
      as (_ & Hr & Hd).
    split_and!; [done | done |].
    apply (raise_files_frame (A:=JSON) msg event (after_send w rq)). }
  split.
  - cbv zeta. split; [apply api_request_sent|].
    eapply Hfr, api_request_world.
  - intros self. cbv zeta. split; [apply utils_api_sent|].
    eapply Hfr, utils_api_world.
Qed.

Lemma contains_decides d (k : bool → Py JSON) w1 w' :
  (∀ w2, ∃ e, (k true w2).1 = Raise e) →
  bind (contains "error" d) k w1 = (Return d, w') → error_free d.
Proof.
  intros Ht. unfold bind.
  destruct (contains "error" d w1) as [[[]|e] w2] eqn:E; [| |done].
  - intros H. destruct (Ht w2) as [e He]. rewrite H in He. discriminate.
  - intros _. by eapply contains_false_inv.
Qed.

Lemma api_request_sound m kw w d w' :
  api._request m kw w = (Return d, w') →
  ∃ r, answers w (mkRequest m api._API_URL (kw_params kw) (kw_data kw)) r ∧
       error_status (status_code r) = false ∧ json r = Some d ∧
       error_free d ∧
       w' = after_send w (mkRequest m api._API_URL (kw_params kw) (kw_data kw)).
Proof.
  intros H.
  destruct (api_request_inv m kw w d w' H) as (r & Ha & Hs & Hj & ->).
  exists r. split_and!; try done.
  rewrite (api_request_decoded m kw w r d Ha Hs Hj) in H.
  eapply contains_decides; [|exact H].
  intros w2. apply (raise_APIError_raises (A:=JSON)).
Qed.

Lemma utils_api_sound self m kw w d w' :
  utils.Bot._api self m kw w = (Return d, w') →
  ∃ r, answers w (mkRequest m utils.API_URL (kw_params kw) (kw_data kw)) r ∧
       error_status (status_code r) = false ∧ json r = Some d ∧
       error_free d ∧
       w' = after_send w (mkRequest m utils.API_URL (kw_params kw) (kw_data kw)).
Proof.
  intros H.
  destruct (utils_api_inv self m kw w d w' H) as (r & Ha & Hs & Hj & ->).
  exists r. split_and!; try done.
  rewrite (utils_api_decoded self m kw w r d Ha Hs Hj) in H.
  eapply contains_decides; [|exact H].
  intros w2. apply (raise_APIError_raises (A:=JSON)).
Qed.

(** X4.  A value returned by the dispatcher is sound: the remote end has
    answered the request with a non-error status and a body that decodes to
    exactly that value, the test ['error' in data] was false on it, and
    nothing was written: the call has only added its request to those
    sent. *)
Theorem returned_value_is_sound m kw w d w' :
  (let rq := mkRequest m api._API_URL (kw_params kw) (kw_data kw) in
   api._request m kw w = (Return d, w') →
   ∃ r, answers w rq r ∧ error_status (status_code r) = false ∧
        json r = Some d ∧ error_free d ∧ w' = after_send w rq) ∧
  (∀ self,
   let rq := mkRequest m utils.API_URL (kw_params kw) (kw_data kw) in
   utils.Bot._api self m kw w = (Return d, w') →
   ∃ r, answers w rq r ∧ error_status (status_code r) = false ∧
        json r = Some d ∧ error_free d ∧ w' = after_send w rq).
Proof.
  split.
  - apply api_request_sound.
  - intros self. apply utils_api_sound.
Qed.

Lemma returned_value_is_sound_witness :
  ∃ r, answers (quiet_world (Responds resp_edit_ok))
         (mkRequest GET api._API_URL ∅ None) r ∧
       error_status (status_code r) = false ∧ json r = Some edit_ok ∧
       error_free edit_ok ∧
       after_send (quiet_world (Responds resp_edit_ok))
         (mkRequest GET api._API_URL ∅ None)
       = after_send (quiet_world (Responds resp_edit_ok))
           (mkRequest GET api._API_URL ∅ None).
Proof.
  apply (proj1 (returned_value_is_sound GET (mkKwargs ∅ None)
                  (quiet_world (Responds resp_edit_ok)) edit_ok
                  (after_send (quiet_world (Responds resp_edit_ok))
                     (mkRequest GET api._API_URL ∅ None)))).
  reflexivity.
Defined.

(** X5.  The two dispatchers are the same function except at one place:
    unless the answer has a non-error status and decodes to a value on which
    ['error' in data] holds, [api._request] and [utils.Bot._api] give the
    same result and leave the same world. *)
Theorem dispatchers_agree self m kw w :
  ¬ reports_error_field w (mkRequest m api._API_URL (kw_params kw) (kw_data kw)) →
  api._request m kw w = utils.Bot._api self m kw w.
Proof.
  intros Hne.
  destruct (remote w (sent w ++ [mkRequest m api._API_URL (kw_params kw)
                                   (kw_data kw)])%list) as [r|] eqn:Hr.
  2: { rewrite api_request_transport_failure by done.
       by rewrite utils_api_transport_failure. }
  destruct (error_status (status_code r)) eqn:Hs.
  { rewrite (api_request_error_status m kw w r Hr Hs).
    by rewrite (utils_api_error_status self m kw w r Hr Hs). }
  destruct (json r) as [d|] eqn:Hj.
  2: { rewrite (api_request_no_json m kw w r Hr Hs Hj).
       by rewrite (utils_api_no_json self m kw w r Hr Hs Hj). }
  rewrite (api_request_decoded m kw w r d Hr Hs Hj).
  rewrite (utils_api_decoded self m kw w r d Hr Hs Hj).
  unfold bind. change utils.API_URL with api._API_URL.
  destruct (contains "error" d _) as [[[]|e] w'] eqn:Hc; [|done|done].
  destruct Hne. exists r, d. split_and!; try done. by rewrite Hc.
Qed.

Lemma dispatchers_agree_witness :
  api._request GET (mkKwargs ∅ None) (quiet_world (Responds resp_404))
  = utils.Bot._api bot0 GET (mkKwargs ∅ None) (quiet_world (Responds resp_404)).
Proof.
  apply (dispatchers_agree bot0 GET (mkKwargs ∅ None)
           (quiet_world (Responds resp_404))).
  intros (r & d & Ha & Hs & _). vm_compute in Ha.
  injection Ha as <-. discriminate Hs.
Defined.

(* ===================================================================== *)
(** * Further properties of [get_token] *)
(* ===================================================================== *)

Lemma eq_str_false_iff t s : eq_str t s = false ↔ t ≠ JStr s.
Proof.
  destruct t; simpl; try (split; [discriminate | done]).
  rewrite String.eqb_neq. split; congruence.
Qed.

(** X6.  A token returned by [get_token] is never the literal [+\\] of the
    source: it is the field ["<tokentype>token"] of [query.tokens] in the
    answer to the one query the call has sent, that answer had a non-error
    status, and nothing was written. *)
Theorem returned_token_is_valid tt w t w' :
  (api.get_token tt w = (Return t, w') →
   t ≠ JStr "+\\" ∧ w' = after_send w (token_query api._API_URL tt) ∧
   ∃ r q, answers w (token_query api._API_URL tt) r ∧
          error_status (status_code r) = false ∧ json r = Some q ∧
          token_field q tt = Some t) ∧
  (∀ self, utils.Bot.get_token self tt w = (Return t, w') →
   t ≠ JStr "+\\" ∧ w' = after_send w (token_query utils.API_URL tt) ∧
   ∃ r q, answers w (token_query utils.API_URL tt) r ∧
          error_status (status_code r) = false ∧ json r = Some q ∧
          token_field q tt = Some t).
Proof.
  split.
  - intros H.
    destruct (api_get_token_inv tt w t w' H) as (r & q & ? & ? & ? & ? & Hq & ->).
    apply eq_str_false_iff in Hq. split_and!; eauto 10.
  - intros self H.
    destruct (utils_get_token_inv self tt w t w' H)
      as (r & q & ? & ? & ? & ? & Hq & ->).
    apply eq_str_false_iff in Hq. split_and!; eauto 10.
Qed.

Lemma returned_token_is_valid_witness :
  JStr "token-1" ≠ JStr "+\\" ∧
  after_send issuing_world (token_query api._API_URL csrf)
  = after_send issuing_world (token_query api._API_URL csrf) ∧
  ∃ r q, answers issuing_world (token_query api._API_URL csrf) r ∧
         error_status (status_code r) = false ∧ json r = Some q ∧
         token_field q csrf = Some (JStr "token-1").
Proof.
  apply (proj1 (returned_token_is_valid csrf issuing_world (JStr "token-1")
                  (after_send issuing_world (token_query api._API_URL csrf)))).
  reflexivity.
Defined.

(** X7.  Every value of the token field other than the literal [+\\] is
    returned as the token, as it is: so is the two-character string made of
    a plus sign and a single backslash. *)
Theorem other_token_is_returned tt w r q t :
  error_status (status_code r) = false →
  json r = Some q → no_top_level_error q →
  token_field q tt = Some t → t ≠ JStr "+\\" →
  (answers w (token_query api._API_URL tt) r →
   api.get_token tt w = (Return t, after_send w (token_query api._API_URL tt))) ∧
  (∀ self, answers w (token_query utils.API_URL tt) r →
   utils.Bot.get_token self tt w
   = (Return t, after_send w (token_query utils.API_URL tt))).
Proof.
  intros Hs Hj He Ht Hq. apply eq_str_false_iff in Hq.
  assert (error_free q) as He' by (by destruct q).
  split.
  - intros Ha. by eapply api_get_token_returns.
  - intros self Ha. by eapply utils_get_token_returns.
Qed.

Lemma other_token_is_returned_witness :
  String.length plus_backslash = 2 ∧
  api.get_token csrf (quiet_world (Responds (resp_token plus_backslash)))
  = (Return (JStr plus_backslash),
     after_send (quiet_world (Responds (resp_token plus_backslash)))
       (token_query api._API_URL csrf)).
Proof.
  split; [reflexivity|].
  apply (other_token_is_returned csrf
           (quiet_world (Responds (resp_token plus_backslash)))
           (resp_token plus_backslash) (tokens_of plus_backslash)
           (JStr plus_backslash)); try reflexivity.
  discriminate.
Defined.

Lemma extract_key_error mq tt w :
  (mq !! "query" = None ∨
   ∃ mk, mq !! "query" = Some (JObj mk) ∧ mk !! "tokens" = None) →
  ∃ k, (q <- getitem (JObj mq) "query" ;;
        ts <- getitem q "tokens" ;;
        getitem ts (TokenType_str tt ++ "token")) w
       = (Raise (KeyError k), w).
Proof.
  intros [H|(mk & H1 & H2)]; unfold bind, getitem.
  - rewrite H. by eexists.
  - rewrite H1. unfold ret at 1. rewrite H2. by eexists.
Qed.

Lemma extract_type_error mq tt w :
  (∃ v, mq !! "query" = Some v ∧ as_dict v = None) ∨
  (∃ mk v, mq !! "query" = Some (JObj mk) ∧ mk !! "tokens" = Some v ∧
           as_dict v = None) →
  (q <- getitem (JObj mq) "query" ;;
   ts <- getitem q "tokens" ;;
   getitem ts (TokenType_str tt ++ "token")) w
  = (Raise TypeError, w).
Proof.
  intros [(v & H & Hv)|(mk & v & H1 & H2 & Hv)]; unfold bind, getitem.
  - rewrite H. unfold ret at 1. by destruct v.
  - rewrite H1. unfold ret at 1. rewrite H2. unfold ret at 1. by destruct v.
Qed.

(** X8.  When the answer to the token query is an object without the key
    [query], or whose [query] mapping has no key [tokens], [get_token]
    executes [raise APIError("No token obtained.", query)] as for a missing
    token field.  For the empty object the payload is falsy: the [APIError]
    is raised and nothing is written. *)
Theorem missing_path_is_reported tt w r mq :
  error_status (status_code r) = false →
  json r = Some (JObj mq) → mq !! "error" = None →
  (mq !! "query" = None ∨
   ∃ mk, mq !! "query" = Some (JObj mk) ∧ mk !! "tokens" = None) →
  (answers w (token_query api._API_URL tt) r →
   api.get_token tt w
   = api.raise_APIError "No token obtained." (PyJSON (JObj mq))
       (after_send w (token_query api._API_URL tt)) ∧
   (mq = ∅ →
    api.get_token tt w
    = (Raise (APIError "No token obtained."),
       after_send w (token_query api._API_URL tt)))) ∧
  (∀ self, answers w (token_query utils.API_URL tt) r →
   utils.Bot.get_token self tt w
   = utils.raise_APIError "No token obtained." (PyJSON (JObj mq))
       (after_send w (token_query utils.API_URL tt)) ∧
   (mq = ∅ →
    utils.Bot.get_token self tt w
    = (Raise (APIError "No token obtained."),
       after_send w (token_query utils.API_URL tt)))).
Proof.
  intros Hs Hj He Hk.
  assert (∀ w0, mq = ∅ →
            utils.raise_APIError (A:=JSON) "No token obtained."
              (PyJSON (JObj mq)) w0
            = (Raise (APIError "No token obtained."), w0)) as Hempty.
  { intros w0 ->. by apply raise_of_init, init_falsy. }
  split.
  - intros Ha.
    assert (api.get_token tt w
            = api.raise_APIError "No token obtained." (PyJSON (JObj mq))
                (after_send w (token_query api._API_URL tt))) as Heq.
    { token_forward_script api.get_token api_get_returns.
      destruct (extract_key_error mq tt w1 Hk) as [k Hx]. rewrite Hx.
      apply (raise_APIError_absorb (A:=JSON) (B:=JSON)). }
    split; [done|]. intros Hm. rewrite Heq. by apply Hempty.
  - intros self Ha.
    assert (utils.Bot.get_token self tt w
            = utils.raise_APIError "No token obtained." (PyJSON (JObj mq))
                (after_send w (token_query utils.API_URL tt))) as Heq.
    { token_forward_script utils.Bot.get_token utils_get_returns.
      destruct (extract_key_error mq tt w1 Hk) as [k Hx]. rewrite Hx.
      apply (raise_APIError_absorb (A:=JSON) (B:=JSON)). }
    split; [done|]. intros Hm. rewrite Heq. by apply Hempty.
Qed.

Lemma missing_path_is_reported_witness :
  json resp_no_query = Some no_query ∧
  api.get_token csrf (quiet_world (Responds resp_no_query))
  = api.raise_APIError "No token obtained." (PyJSON no_query)
      (after_send (quiet_world (Responds resp_no_query))
         (token_query api._API_URL csrf)).
Proof.
  split; [reflexivity|].
  refine (proj1 (proj1 (missing_path_is_reported csrf
            (quiet_world (Responds resp_no_query)) resp_no_query
            {[ "batchcomplete" := JBool true ]}
            eq_refl eq_refl eq_refl (or_introl eq_refl)) eq_refl)).
Defined.

(** X9.  When the value under [query], or the value under [tokens], is no
    mapping (a list, a string, a number, [null]), the subscript raises
    [TypeError]; [get_token] does not catch it: the caller gets the
    [TypeError], not an [APIError], and nothing is written. *)
Theorem non_mapping_path_raises_TypeError tt w r mq :
  error_status (status_code r) = false →
  json r = Some (JObj mq) → mq !! "error" = None →
  ((∃ v, mq !! "query" = Some v ∧ as_dict v = None) ∨
   (∃ mk v, mq !! "query" = Some (JObj mk) ∧ mk !! "tokens" = Some v ∧
            as_dict v = None)) →
  (answers w (token_query api._API_URL tt) r →
   api.get_token tt w
   = (Raise TypeError, after_send w (token_query api._API_URL tt))) ∧
  (∀ self, answers w (token_query utils.API_URL tt) r →
   utils.Bot.get_token self tt w
   = (Raise TypeError, after_send w (token_query utils.API_URL tt))).
Proof.
  intros Hs Hj He Hk. split.
  - intros Ha. token_forward_script api.get_token api_get_returns.
    by rewrite (extract_type_error mq tt w1 Hk).
  - intros self Ha. token_forward_script utils.Bot.get_token utils_get_returns.
    by rewrite (extract_type_error mq tt w1 Hk).
Qed.

Lemma non_mapping_path_raises_TypeError_witness :
  json resp_query_list = Some query_list ∧
  api.get_token csrf (quiet_world (Responds resp_query_list))
  = (Raise TypeError,
     after_send (quiet_world (Responds resp_query_list))
       (token_query api._API_URL csrf)).
Proof.
  split; [reflexivity|].
  refine (proj1 (non_mapping_path_raises_TypeError csrf
            (quiet_world (Responds resp_query_list)) resp_query_list
            {[ "query" := JArr [] ]} eq_refl eq_refl eq_refl
            (or_introl (ex_intro _ (JArr []) (conj eq_refl eq_refl)))) eq_refl).
Defined.

(* ===================================================================== *)
(** * Further properties of the error reporter *)
(* ===================================================================== *)

(** X10.  A report overwrites.  With a JSON payload the JSON sink ends up
    holding that payload alone, whatever it held before, and every other
    file, the text sink included, is as it was.  With a [bytes] payload the
    text sink ends up holding the text of the bytes alone and the JSON sink
    is emptied, so an earlier JSON report is lost; if the text sink cannot
    be opened, the JSON sink has been emptied all the same. *)
Theorem report_overwrites (raise_it : string → pyobj → Py JSON) msg w :
  raise_it = api.raise_APIError ∨ raise_it = utils.raise_APIError →
  json_sink ∉ denied w →
  (∀ j, json_truthy j = true →
     let w' := (raise_it msg (PyJSON j) w).2 in
     files w' !! json_sink = Some [json_text j] ∧
     ∀ p, p ≠ json_sink → files w' !! p = files w !! p) ∧
  (∀ b, b ≠ [] →
     let w' := (raise_it msg (PyBytes b) w).2 in
     files w' !! json_sink = Some [] ∧
     (txt_sink ∉ denied w →
      files w' !! txt_sink = Some [str_text (PyBytes b)]) ∧
     (txt_sink ∈ denied w → files w' !! txt_sink = files w !! txt_sink)).
Proof.
  intros Hr Hj.
  assert (raise_it = utils.raise_APIError) as -> by (by destruct Hr as [->| ->]).
  clear Hr. split.
  - intros j Ht. cbv zeta.
    rewrite (raise_of_init _ _ _ _ _ (init_json msg w j Ht Hj)). simpl.
    split; [apply lookup_insert_eq|]. intros p Hp. by rewrite lookup_insert_ne.
  - intros b Hb. cbv zeta.
    destruct (decide (txt_sink ∈ denied w)) as [Hx|Hx].
    + rewrite (raise_of_init_failed _ _ _ _ _
                 (init_bytes_txt_denied msg w b Hb Hj Hx)). simpl.
      split_and!; [apply lookup_insert_eq | done |].
      intros _. by rewrite lookup_insert_ne.
    + rewrite (raise_of_init _ _ _ _ _ (init_bytes msg w b Hb Hj Hx)). simpl.
      split_and!; [| intros _; apply lookup_insert_eq | done].
      rewrite lookup_insert_ne by done. apply lookup_insert_eq.
Qed.

Lemma report_overwrites_witness :
  files (used_world Fails) !! json_sink = Some [json_text badtoken] ∧
  files (api.raise_APIError (A:=JSON) "response.status_code=404"
           (PyBytes (bytes_of "gone")) (used_world Fails)).2 !! json_sink
  = Some [].
Proof.
  split; [reflexivity|].
  refine (proj1 (proj2 (report_overwrites api.raise_APIError
            "response.status_code=404" (used_world Fails)
            (or_introl eq_refl) _) (bytes_of "gone") _)).
  - vm_compute. set_solver.
  - discriminate.
Defined.

(** X11.  Raising an [APIError] never returns, sends nothing, and touches
    no file other than the two sinks, whatever the payload and whether or
    not the sinks can be opened. *)
Theorem report_frame (raise_it : string → pyobj → Py JSON) msg event w :
  raise_it = api.raise_APIError ∨ raise_it = utils.raise_APIError →
  (∃ e, (raise_it msg event w).1 = Raise e) ∧
  same_network w (raise_it msg event w).2 ∧
  same_outside_sinks w (raise_it msg event w).2.
Proof.
  intros Hr.
  assert (raise_it = utils.raise_APIError) as -> by (by destruct Hr as [->| ->]).
  split_and!.
  - apply raise_APIError_raises.
  - apply (raise_APIError_frame (A:=JSON)).
  - apply raise_files_frame.
Qed.

Lemma report_frame_witness :
  files (api.raise_APIError (A:=JSON) "No token obtained." (PyJSON no_tokens)
           (used_world Fails)).2 !! "logs/pages.txt"
  = Some [str_text (PyStr "Sandbox")].
Proof.
  refine (proj2 (proj2 (report_frame api.raise_APIError "No token obtained."
            (PyJSON no_tokens) (used_world Fails) (or_introl eq_refl)))
            "logs/pages.txt" _ _); discriminate.
Defined.

(* ===================================================================== *)
(** * Further properties of [post] *)
(* ===================================================================== *)

Lemma post_requests_carry_valid_token url P tt w w' t new :
  t ≠ JStr "+\\" →
  sent w' = (sent w ++ [token_query url tt; post_request url P t])%list ∨
  sent w' = (sent w ++ [token_query url tt])%list →
  sent w' = (sent w ++ new)%list →
  ∀ rq, rq ∈ new → req_method rq = POST →
        ∃ t', rq = post_request url P t' ∧ t' ≠ JStr "+\\".
Proof.
  intros Ht [H|H] Hn rq Hin Hm; rewrite H in Hn;
    apply app_inv_head in Hn; subst new.
  - apply elem_of_cons in Hin as [->|Hin]; [done|].
    apply list_elem_of_singleton in Hin as ->. eauto.
  - apply list_elem_of_singleton in Hin as ->. done.
Qed.

Lemma api_post_token_valid P tt w new :
  sent (api.post P tt w).2 = (sent w ++ new)%list →
  ∀ rq, rq ∈ new → req_method rq = POST →
        ∃ t, rq = post_request api._API_URL P t ∧ t ≠ JStr "+\\".
Proof.
  destruct (api.get_token tt w) as [[t|e] w1] eqn:E.
  - destruct (api_get_token_inv tt w t w1 E) as (_ & _ & _ & _ & _ & _ & Hq & _).
    apply eq_str_false_iff in Hq.
    destruct (api_post_with_token P tt w t w1 E) as [_ Hs].
    eapply post_requests_carry_valid_token; eauto.
  - destruct (api_post_without_token P tt w e w1 E) as [-> Hs].
    eapply (post_requests_carry_valid_token _ _ _ _ _ JNull); eauto.
Qed.

Lemma utils_post_token_valid self P tt w new :
  sent (utils.Bot.post self P tt w).2 = (sent w ++ new)%list →
  ∀ rq, rq ∈ new → req_method rq = POST →
        ∃ t, rq = post_request utils.API_URL P t ∧ t ≠ JStr "+\\".
Proof.
  destruct (utils.Bot.get_token self tt w) as [[t|e] w1] eqn:E.
  - destruct (utils_get_token_inv self tt w t w1 E)
      as (_ & _ & _ & _ & _ & _ & Hq & _).
    apply eq_str_false_iff in Hq.
    destruct (utils_post_with_token self P tt w t w1 E) as [_ Hs].
    eapply post_requests_carry_valid_token; eauto.
  - destruct (utils_post_without_token self P tt w e w1 E) as [-> Hs].
    eapply (post_requests_carry_valid_token _ _ _ _ _ JNull); eauto.
Qed.

(** X12.  [post] never transmits the literal [+\\] as a token: every POST
    request sent by a call of [post], whether the call then succeeds or
    fails, is the request for the caller's parameters with a token other
    than that literal. *)
Theorem post_never_sends_sentinel P tt w new :
  (sent (api.post P tt w).2 = (sent w ++ new)%list →
   ∀ rq, rq ∈ new → req_method rq = POST →
         ∃ t, rq = post_request api._API_URL P t ∧ t ≠ JStr "+\\") ∧
  (∀ self, sent (utils.Bot.post self P tt w).2 = (sent w ++ new)%list →
   ∀ rq, rq ∈ new → req_method rq = POST →
         ∃ t, rq = post_request utils.API_URL P t ∧ t ≠ JStr "+\\").
Proof.
  split.
  - apply api_post_token_valid.
  - intros self. apply utils_post_token_valid.
Qed.

Lemma post_never_sends_sentinel_witness :
  ∃ t, post_request api._API_URL edit_params (JStr "token-1")
       = post_request api._API_URL edit_params t ∧ t ≠ JStr "+\\".
Proof.
  apply (proj1 (post_never_sends_sentinel edit_params csrf issuing_world
                  [token_query api._API_URL csrf;
                   post_request api._API_URL edit_params (JStr "token-1")])
           eq_refl
           (post_request api._API_URL edit_params (JStr "token-1"))).
  - apply elem_of_cons. right. apply elem_of_cons. by left.
  - reflexivity.
Defined.

(** X13.  A call of [post] that returns has sent exactly its token query
    and its POST, in that order, has written no file, and returns the value
    the answer to the POST decodes to, on which ['error' in data] was
    false. *)
Theorem post_success_is_sound P tt w d w' :
  (api.post P tt w = (Return d, w') →
   ∃ t r, t ≠ JStr "+\\" ∧
     sent w' = (sent w ++ [token_query api._API_URL tt;
                           post_request api._API_URL P t])%list ∧
     files w' = files w ∧
     remote w (sent w') = Responds r ∧
     error_status (status_code r) = false ∧ json r = Some d ∧ error_free d) ∧
  (∀ self, utils.Bot.post self P tt w = (Return d, w') →
   ∃ t r, t ≠ JStr "+\\" ∧
     sent w' = (sent w ++ [token_query utils.API_URL tt;
                           post_request utils.API_URL P t])%list ∧
     files w' = files w ∧
     remote w (sent w') = Responds r ∧
     error_status (status_code r) = false ∧ json r = Some d ∧ error_free d).
Proof.
  split.
  - intros H. destruct (api.get_token tt w) as [[t|e] w1] eqn:E.
    2: { destruct (api_post_without_token P tt w e w1 E) as [H' _].
         rewrite H' in H. discriminate. }
    destruct (api_get_token_inv tt w t w1 E) as (_ & _ & _ & _ & _ & _ & Hq & ->).
    apply eq_str_false_iff in Hq.
    destruct (api_post_with_token P tt w t _ E) as [Hp Hs].
    rewrite H in Hs. rewrite Hp in H.
    destruct (api_request_sound _ _ _ _ _ H) as (r & Ha & Hst & Hj & He & ->).
    exists t, r. by split_and!.
  - intros self H. destruct (utils.Bot.get_token self tt w) as [[t|e] w1] eqn:E.
    2: { destruct (utils_post_without_token self P tt w e w1 E) as [H' _].
         rewrite H' in H. discriminate. }
    destruct (utils_get_token_inv self tt w t w1 E)
      as (_ & _ & _ & _ & _ & _ & Hq & ->).
    apply eq_str_false_iff in Hq.
    destruct (utils_post_with_token self P tt w t _ E) as [Hp Hs].
    rewrite H in Hs. rewrite Hp in H.
    destruct (utils_api_sound _ _ _ _ _ _ H) as (r & Ha & Hst & Hj & He & ->).
    exists t, r. by split_and!.
Qed.

Lemma post_success_is_sound_witness :
  ∃ t r, t ≠ JStr "+\\" ∧
    sent (api.post edit_params csrf issuing_world).2
    = ([] ++ [token_query api._API_URL csrf;
              post_request api._API_URL edit_params t])%list ∧
    files (api.post edit_params csrf issuing_world).2 = ∅ ∧
    issuing_remote (sent (api.post edit_params csrf issuing_world).2)
    = Responds r ∧
    error_status (status_code r) = false ∧ json r = Some edit_ok ∧
    error_free edit_ok.
Proof.
  apply (proj1 (post_success_is_sound edit_params csrf issuing_world edit_ok
                  (api.post edit_params csrf issuing_world).2)).
  vm_compute. reflexivity.
Defined.

(* ===================================================================== *)
(** * [Bot.__repr__] and [Bot.__str__] *)
(* ===================================================================== *)

(** X14.  [str] of a [Bot] is [Bot(<Authorization object with access key
    K>)] for the access key [K] of its credentials and depends on nothing
    else of them; [repr] of a [Bot] shows all four credential fields in
    full. *)
Theorem bot_display :
  (∀ b c, utils.Authorization.access_key (utils.Bot._auth b)
          = utils.Authorization.access_key (utils.Bot._auth c) →
          utils.Bot.__str__ b = utils.Bot.__str__ c) ∧
  (∀ b, utils.Bot.__str__ b
        = "Bot(<Authorization object with access key "
          ++ utils.Authorization.access_key (utils.Bot._auth b) ++ ">)") ∧
  (∀ b, shows_all_fields (utils.Bot._auth b) (utils.Bot.__repr__ b)).
Proof.
  split_and!.
  - intros b c H. unfold utils.Bot.__str__, utils.Authorization.__str__.
    by rewrite H.
  - intros b. unfold utils.Bot.__str__, utils.Authorization.__str__.
    by rewrite !append_assoc.
  - intros [[ck cs ak asec]].
    unfold shows_all_fields, utils.Bot.__repr__, utils.Authorization.__repr__.
    simpl. rewrite !append_assoc. split_and!; find_field.
Qed.

Lemma bot_display_witness :
  auth0 ≠ auth1 ∧
  utils.Bot.__str__ (utils.Bot.mk auth0) = utils.Bot.__str__ (utils.Bot.mk auth1).
Proof.
  split; [discriminate|].
  apply (proj1 bot_display (utils.Bot.mk auth0) (utils.Bot.mk auth1)).
  reflexivity.
Defined.

(* ===================================================================== *)
(** * [get_page] and [Bot.getpage] *)
(* ===================================================================== *)

Section pages.
Variable Page : Type.
Variable Page_new : string → Z → Page.
Variable Page_exists : Page → Py bool.

(** X15.  Without [must_exist], [get_page] returns the page reference and
    does not ask whether the page exists: the world is untouched, even with
    an existence check that would raise.  With [must_exist], it returns the
    page exactly when the check says it exists, raises [ZBError "Page does
    not exist"] when the check says it does not, and lets an exception of
    the check through; in each case the world is as the check left it.
    [Bot.getpage] of [utils.py] is the same function. *)
Theorem get_page_checks_on_demand title ns w :
  let page := Page_new title ns in
  api.get_page Page Page_new Page_exists title ns false w = (Return page, w) ∧
  (∀ w', Page_exists page w = (Return true, w') →
     api.get_page Page Page_new Page_exists title ns true w = (Return page, w')) ∧
  (∀ w', Page_exists page w = (Return false, w') →
     api.get_page Page Page_new Page_exists title ns true w
     = (Raise (ZBError "Page does not exist"), w')) ∧
  (∀ e w', Page_exists page w = (Raise e, w') →
     api.get_page Page Page_new Page_exists title ns true w = (Raise e, w')) ∧
  (∀ p w', api.get_page Page Page_new Page_exists title ns true w = (Return p, w') →
     p = page ∧ Page_exists page w = (Return true, w')) ∧
  (∀ self must_exist,
     utils.Bot.getpage Page Page_new Page_exists self title ns must_exist w
     = api.get_page Page Page_new Page_exists title ns must_exist w).
Proof.
  cbv zeta. unfold api.get_page, utils.Bot.getpage, bind, ret, raise.
  split_and!; try done.
  - by intros w' ->.
  - by intros w' ->.
  - by intros e w' ->.
  - intros p w'. destruct (Page_exists (Page_new title ns) w) as [[[]|e] w1];
      simpl; by intros [= <- <-].
Qed.
End pages.

Lemma get_page_checks_on_demand_witness :
  api.get_page toy_page pair toy_exists "Main Page" 0 true (quiet_world Fails)
  = (Raise (ZBError "Page does not exist"), quiet_world Fails) ∧
  api.get_page toy_page pair toy_exists_broken "Main Page" 0 false
    (quiet_world Fails)
  = (Return ("Main Page", 0%Z), quiet_world Fails).
Proof.
  split.
  - apply (proj1 (proj2 (proj2 (get_page_checks_on_demand toy_page pair
                                  toy_exists "Main Page" 0 (quiet_world Fails))))).
    reflexivity.
  - apply (proj1 (get_page_checks_on_demand toy_page pair toy_exists_broken
                    "Main Page" 0 (quiet_world Fails))).
Defined.

(* ===================================================================== *)
(** * [log_onwiki] and [log_local] *)
(* ===================================================================== *)

Lemma log_params_with_format event logpage prefix summary :
  with_format (log_params event logpage prefix summary)
  = {[ "format" := PyStr "json"; "action" := PyStr "edit";
       "title" := PyStr (prefix ++ logpage);
       "appendtext" := PyStr event; "summary" := PyStr summary ]}.
Proof. vm_compute. reflexivity. Qed.

Lemma log_onwiki_post zb event logpage prefix summary w :
  utils.log_onwiki zb event logpage prefix summary w
  = match utils.Bot.post zb (log_params event logpage prefix summary) csrf w with
    | (Return _, w') => (Return tt, w')
    | (Raise e, w') => (Raise e, w')
    end.
Proof. reflexivity. Qed.

Lemma log_onwiki_world zb event logpage prefix summary w :
  (utils.log_onwiki zb event logpage prefix summary w).2
  = (utils.Bot.post zb (log_params event logpage prefix summary) csrf w).2.
Proof.
  rewrite log_onwiki_post.
  by destruct (utils.Bot.post zb _ csrf w) as [[d|e] w'].
Qed.

(** X16.  [log_onwiki] edits through [post] with a CSRF token.  It sends the
    token query for [csrf]; as soon as [get_token] returns a token (any field
    value other than [+\\]) it sends one POST whose parameters are
    [action=edit], the title [prefix + logpage], the event as [appendtext],
    the summary and [format=json], with that token as its body; when
    [get_token] raises it raises the same and posts nothing.  It returns
    [None] when the POST is answered without error, exactly when [post]
    returns, and otherwise raises what [post] raises. *)
Theorem log_onwiki_edits_with_token zb event logpage prefix summary w :
  let P := log_params event logpage prefix summary in
  let out := utils.log_onwiki zb event logpage prefix summary w in
  fresh_token_sent utils.API_URL P csrf w out.2 ∧
  (∀ new rq, sent out.2 = (sent w ++ new)%list → rq ∈ new →
     req_method rq = POST →
     (∃ t, req_data rq = Some {[ "token" := PyJSON t ]} ∧ t ≠ JStr "+\\") ∧
     req_params rq
     = {[ "format" := PyStr "json"; "action" := PyStr "edit";
          "title" := PyStr (prefix ++ logpage);
          "appendtext" := PyStr event; "summary" := PyStr summary ]}) ∧
  (out.1 = Return tt ↔ ∃ d, (utils.Bot.post zb P csrf w).1 = Return d) ∧
  (∀ e, out.1 = Raise e ↔ (utils.Bot.post zb P csrf w).1 = Raise e) ∧
  (∀ t w1, utils.Bot.get_token zb csrf w = (Return t, w1) →
     sent out.2
     = (sent w ++ [token_query utils.API_URL csrf;
                   post_request utils.API_URL P t])%list) ∧
  (∀ r q t, answers w (token_query utils.API_URL csrf) r →
     error_status (status_code r) = false → json r = Some q →
     no_top_level_error q → token_field q csrf = Some t → t ≠ JStr "+\\" →
     sent out.2
     = (sent w ++ [token_query utils.API_URL csrf;
                   post_request utils.API_URL P t])%list) ∧
  (∀ e w1, utils.Bot.get_token zb csrf w = (Raise e, w1) →
     out = (Raise e, w1) ∧
     sent w1 = (sent w ++ [token_query utils.API_URL csrf])%list) ∧
  (∀ t w1 r d, utils.Bot.get_token zb csrf w = (Return t, w1) →
     answers w1 (post_request utils.API_URL P t) r →
     error_status (status_code r) = false → json r = Some d → error_free d →
     out = (Return tt, after_send w1 (post_request utils.API_URL P t))).
Proof.
  cbv zeta.
  assert (∀ t w1, utils.Bot.get_token zb csrf w = (Return t, w1) →
     sent (utils.log_onwiki zb event logpage prefix summary w).2
     = (sent w ++ [token_query utils.API_URL csrf;
                   post_request utils.API_URL
                     (log_params event logpage prefix summary) t])%list)
    as Hsent.
  { intros t w1 H. rewrite log_onwiki_world.
    by eapply utils_post_with_token. }
  split_and!.
  - rewrite log_onwiki_world. apply utils_post_sent.
  - rewrite log_onwiki_world. intros new rq Hs Hin Hm.
    destruct (utils_post_token_valid zb _ csrf w new Hs rq Hin Hm)
      as (t & -> & Ht).
    split; [eauto|]. apply log_params_with_format.
  - rewrite log_onwiki_post.
    destruct (utils.Bot.post zb _ csrf w) as [[d|e] w']; simpl.
    + split; eauto.
    + split; [discriminate | by intros [d ?]].
  - intros e. rewrite log_onwiki_post.
    destruct (utils.Bot.post zb _ csrf w) as [[d|e'] w']; simpl.
    + split; discriminate.
    + split; congruence.
  - exact Hsent.
  - intros r q t Ha Hs Hj He Ht Hq.
    apply eq_str_false_iff in Hq.
    assert (error_free q) as He' by (by destruct q).
    eapply Hsent. by eapply utils_get_token_returns.
  - intros e w1 H.
    destruct (utils_post_without_token zb
                (log_params event logpage prefix summary) csrf w e w1 H)
      as [Hp Hs].
    split; [|done]. rewrite log_onwiki_post. by rewrite Hp.
  - intros t w1 r d H Ha Hs Hj He. rewrite log_onwiki_post.
    by rewrite (utils_post_returns zb _ csrf w t w1 r d H Ha Hs Hj He).
Qed.

Lemma log_onwiki_edits_with_token_witness :
  utils.Bot.get_token bot0 csrf issuing_world
  = (Return (JStr "token-1"),
     after_send issuing_world (token_query utils.API_URL csrf)) ∧
  sent (utils.log_onwiki bot0 "* [[Sandbox]] patrolled" "patrol"
          utils.log_onwiki_prefix utils.log_onwiki_summary issuing_world).2
  = ([] ++ [token_query utils.API_URL csrf;
            post_request utils.API_URL
              (log_params "* [[Sandbox]] patrolled" "patrol"
                 utils.log_onwiki_prefix utils.log_onwiki_summary)
              (JStr "token-1")])%list.
Proof.
  split; [reflexivity|].
  apply (proj1 (proj2 (proj2 (proj2 (proj2 (log_onwiki_edits_with_token bot0
           "* [[Sandbox]] patrolled" "patrol" utils.log_onwiki_prefix
           utils.log_onwiki_summary issuing_world)))))
           (JStr "token-1")
           (after_send issuing_world (token_query utils.API_URL csrf))).
  reflexivity.
Defined.

Section local_log.
Variable Page : Type.
Variable Page_title : Page → bool → string.

Lemma log_local_step page logfile w :
  "logs/" ++ logfile ∉ denied w →
  utils.log_local Page Page_title page logfile w
  = (Return tt,
     set_files (<["logs/" ++ logfile :=
                   (default [] (files w !! ("logs/" ++ logfile)%string)
                    ++ [log_line Page_title page])%list]> (files w)) w).
Proof.
  intros H. unfold utils.log_local, with_open_a, bind, open_a.
  rewrite decide_False by done. unfold write. simpl.
  by rewrite lookup_insert_eq, insert_insert_eq.
Qed.

(** X17.  [log_local] appends.  Logging a list of pages to a file of [logs/]
    that can be opened leaves in it what it held before, followed by one line
    per page in the order of the calls, each line being the title, a space
    and the page's URL under [WIKI_URL] in angle brackets, then a line feed;
    no other file changes and nothing is sent.  When the file cannot be
    opened the call raises [OSError] and changes nothing. *)
Theorem log_local_appends logfile pages w :
  let path := "logs/" ++ logfile in
  let w' := foldl (λ w0 page,
                     (utils.log_local Page Page_title page logfile w0).2)
              w pages in
  (path ∉ denied w →
   default [] (files w' !! path)
   = (default [] (files w !! path) ++ map (log_line Page_title) pages)%list ∧
   (∀ p, p ≠ path → files w' !! p = files w !! p) ∧
   same_network w w') ∧
  (path ∈ denied w →
   ∀ page, utils.log_local Page Page_title page logfile w
           = (Raise (OSError path), w)).
Proof.
  cbv zeta. split.
  - revert w. induction pages as [|page pages IH]; intros w Hd.
    { simpl. by rewrite app_nil_r. }
    simpl. rewrite (log_local_step page logfile w Hd). simpl.
    destruct (IH (set_files (<["logs/" ++ logfile :=
                   (default [] (files w !! ("logs/" ++ logfile)%string)
                    ++ [log_line Page_title page])%list]> (files w)) w) Hd)
      as (Hc & Ho & Hn).
    split_and!.
    + rewrite Hc. simpl. rewrite lookup_insert_eq. simpl.
      by rewrite <- app_assoc.
    + intros p Hp. rewrite (Ho p Hp). simpl. by rewrite lookup_insert_ne.
    + exact Hn.
  - intros Hd page. unfold utils.log_local, with_open_a, bind, open_a.
    by rewrite decide_True.
Qed.
End local_log.

Lemma log_local_appends_witness :
  default [] (files (foldl (λ w0 page,
                       (utils.log_local toy_page toy_title page "pages.txt" w0).2)
                      (used_world Fails)
                      [("Main Page", 0%Z); ("Help", 12%Z)]) !! "logs/pages.txt")
  = [ str_text (PyStr "Sandbox");
      log_line toy_title ("Main Page", 0%Z);
      log_line toy_title ("Help", 12%Z) ].
Proof.
  refine (proj1 (proj1 (log_local_appends toy_page toy_title "pages.txt"
            [("Main Page", 0%Z); ("Help", 12%Z)] (used_world Fails)) _)).
  vm_compute. set_solver.
Defined.

Lemma dispatch_frame_witness :
  files (api._request GET (mkKwargs ∅ None)
           (used_world (Responds resp_404))).2 !! "logs/pages.txt"
  = Some [str_text (PyStr "Sandbox")].
Proof.
  refine (proj2 (proj2 (proj2 (proj1 (dispatch_frame GET (mkKwargs ∅ None)
            (used_world (Responds resp_404))))))
            "logs/pages.txt" _ _); discriminate.
Defined.
